(** * opensea-go-api: query encoding and the request path of the client

    A shallow embedding of [GetAssetsParams.Encode] (three revisions of the
    file are kept in the repository) and of the request path
    [GetAssetsWithContext] / [GetSingleAssetWithContext] / [GetPath] /
    [getURL] of [opensea-client.go].

    Go strings are byte sequences: they are [string] (lists of 8-bit
    [ascii]).  Go's [int], [int32] and [big.Int] values are only compared
    with zero and printed, never computed with, so they are [Z].  A slice is
    a [list]; the code treats a nil slice and an empty one alike
    ([x != nil && len(x) > 0]).  A pointer that is only tested against nil
    and dereferenced is an [option].  The calls to [fmt.Println] write to
    the standard output and do not influence any returned value; they are
    left out, and so is the deferred [resp.Body.Close()].  The methods whose
    names end in [Test] (a second copy of the request path that talks to
    [http.DefaultClient] and drops every error) are embedded further down,
    in [OpenseaTest], with the clients of the two older revisions. *)

From Stdlib Require Import ZArith NArith Ascii String DecimalString DecimalFacts DecimalPos DecimalZ.
From stdpp Require Import base decidable option list gmap strings sorting.

Local Open Scope string_scope.
Local Open Scope Z_scope.

(** ** The library functions the code calls *)

(** How fmt prints an integer under [%d] (also [Text(10)] of a [big.Int]):
    the decimal digits, with a leading minus sign for a negative number. *)
Definition Sprintf_d (x : Z) : string := NilZero.string_of_int (Z.to_int x).

(** [String] of a [big.Int] pointer: decimal, and [<nil>] for a nil pointer. *)
Definition BigInt_String (x : option Z) : string :=
  match x with
  | None => "<nil>"
  | Some z => Sprintf_d z
  end.

(** [strconv.FormatBool], which is also how fmt prints a bool. *)
Definition FormatBool (b : bool) : string := if b then "true" else "false".

(** The arguments of a [fmt.Sprintf] call, with the name fmt prints for the
    type of each. *)
Inductive arg :=
  | aInt (ty : string) (x : Z)
  | aString (s : string)
  | aBool (b : bool).

Definition arg_type (a : arg) : string :=
  match a with
  | aInt ty _ => ty
  | aString _ => "string"
  | aBool _ => "bool"
  end.

(** The [%v] form of an argument. *)
Definition arg_v (a : arg) : string :=
  match a with
  | aInt _ x => Sprintf_d x
  | aString s => s
  | aBool b => FormatBool b
  end.

(** What fmt prints for a verb that does not apply to the argument. *)
Definition badVerb (verb : ascii) (a : arg) : string :=
  "%!" +:+ String verb ("(" +:+ arg_type a +:+ "=" +:+ arg_v a +:+ ")").

(** One formatting directive.  Of the verbs that apply to the type of an
    argument, the ones the package writes ([%d], [%s], [%v]) and [%t] are
    covered. *)
Definition printVerb (verb : ascii) (a : arg) : string :=
  match a with
  | aInt _ x => if bool_decide (verb ∈ ["d"; "v"]%char) then Sprintf_d x else badVerb verb a
  | aString s => if bool_decide (verb ∈ ["s"; "v"]%char) then s else badVerb verb a
  | aBool b => if bool_decide (verb ∈ ["t"; "v"]%char) then FormatBool b else badVerb verb a
  end.

Definition extra_args (args : list arg) : string :=
  match args with
  | [] => ""
  | a :: rest =>
      "%!(EXTRA " +:+ arg_type a +:+ "=" +:+ arg_v a
        +:+ foldr (fun b acc => ", " +:+ arg_type b +:+ "=" +:+ arg_v b +:+ acc) ")" rest
  end.

(** [fmt.Sprintf] for format strings made of plain text, [%%] and
    one-letter verbs without flags, which is all the package writes. *)
Fixpoint Sprintf (format : string) (args : list arg) : string :=
  match format with
  | EmptyString => extra_args args
  | String "%" EmptyString => "%!(NOVERB)" +:+ extra_args args
  | String "%" (String "%" rest) => String "%" (Sprintf rest args)
  | String "%" (String verb rest) =>
      match args with
      | [] => "%!" +:+ String verb ("(MISSING)" +:+ Sprintf rest [])
      | a :: args' => printVerb verb a +:+ Sprintf rest args'
      end
  | String c rest => String c (Sprintf rest args)
  end.

(** [strconv.NumError] *)
Record NumError := { Func : string; Num : string; Err : string }.

(** [strconv.ParseBool] *)
Definition ParseBool (str : string) : bool * option NumError :=
  if bool_decide (str ∈ ["1"; "t"; "T"; "true"; "TRUE"; "True"]) then (true, None)
  else if bool_decide (str ∈ ["0"; "f"; "F"; "false"; "FALSE"; "False"]) then (false, None)
  else (false, Some {| Func := "ParseBool"; Num := str; Err := "invalid syntax" |}).

(** ** net/url *)

Module url.

(** [url.Values] is [map[string][]string]. *)
Abbreviation Values := (gmap string (list string)).

Definition Get_all (v : Values) (key : string) : list string :=
  default [] (v !! key).

Definition Set_ (v : Values) (key value : string) : Values :=
  <[key := [value]]> v.

Definition Add (v : Values) (key value : string) : Values :=
  <[key := (Get_all v key ++ [value])%list]> v.

Definition Del (v : Values) (key : string) : Values :=
  delete key v.

Definition byte_in (lo hi c : ascii) : bool :=
  ((N_of_ascii lo <=? N_of_ascii c) && (N_of_ascii c <=? N_of_ascii hi))%N.

(** [shouldEscape(c, encodeQueryComponent)]: everything but the
    unreserved characters. *)
Definition shouldEscape (c : ascii) : bool :=
  if byte_in "a" "z" c || byte_in "A" "Z" c || byte_in "0" "9" c then false
  else if bool_decide (c ∈ ["-"; "_"; "."; "~"]%char) then false
  else true.

Definition upperhex : string := "0123456789ABCDEF".

Definition hexdigit (n : N) : ascii :=
  default "0"%char (String.get (N.to_nat n) upperhex).

(** The second loop of [escape] in mode [encodeQueryComponent].  The first
    loop only counts, to return [s] itself when nothing is to be escaped,
    which is what the second loop produces then. *)
Fixpoint QueryEscape (s : string) : string :=
  match s with
  | EmptyString => EmptyString
  | String c s' =>
      if Ascii.eqb c " " then String "+" (QueryEscape s')
      else if shouldEscape c then
        String "%" (String (hexdigit (N.shiftr (N_of_ascii c) 4))
                   (String (hexdigit (N.land (N_of_ascii c) 15)) (QueryEscape s')))
      else String c (QueryEscape s')
  end.

Definition key_le (a b : string) : Prop := String.leb a b = true.

#[global] Instance key_le_dec : RelDecision key_le.
Proof. intros a b. unfold key_le. apply _. Defined.

(** The keys of the map, sorted ([slices.Sort(keys)]). *)
Definition sorted_keys (v : Values) : list string :=
  merge_sort key_le (map_to_list v).*1.

(** One iteration of the inner loop of [Values.Encode]. *)
Definition write_pair (keyEscaped : string) (buf v : string) : string :=
  (if bool_decide (0 < String.length buf)%nat then buf +:+ "&" else buf)
    +:+ keyEscaped +:+ "=" +:+ QueryEscape v.

(** [Values.Encode]: "key=value" pairs joined by [&], keys in sorted
    order, the values of one key in their order. *)
Definition Encode (v : Values) : string :=
  foldl (fun buf k => foldl (write_pair (QueryEscape k)) buf (Get_all v k))
        "" (sorted_keys v).

Definition ishex (c : ascii) : bool :=
  byte_in "0" "9" c || byte_in "a" "f" c || byte_in "A" "F" c.

Definition unhex (c : ascii) : N :=
  (if byte_in "0" "9" c then N_of_ascii c - N_of_ascii "0"
   else if byte_in "a" "f" c then N_of_ascii c - N_of_ascii "a" + 10
   else if byte_in "A" "F" c then N_of_ascii c - N_of_ascii "A" + 10
   else 0)%N.

(** [QueryUnescape]: [None] stands for the [EscapeError]. *)
Fixpoint QueryUnescape (s : string) : option string :=
  match s with
  | EmptyString => Some EmptyString
  | String "%" (String h (String l s')) =>
      if ishex h && ishex l
      then String (ascii_of_N (N.lor (N.shiftl (unhex h) 4) (unhex l))) <$> QueryUnescape s'
      else None
  | String "%" _ => None
  | String "+" s' => String " " <$> QueryUnescape s'
  | String c s' => String c <$> QueryUnescape s'
  end.

(** [strings.Split(s, sep)] for a one-byte separator. *)
Fixpoint split (sep : ascii) (s : string) : list string :=
  match s with
  | EmptyString => [EmptyString]
  | String c s' =>
      if Ascii.eqb c sep then EmptyString :: split sep s'
      else match split sep s' with
           | [] => [String c EmptyString]
           | w :: ws => String c w :: ws
           end
  end.

(** [strings.Cut(s, sep)] for a one-byte separator: the text before the
    first separator and the text after it. *)
Fixpoint cut (sep : ascii) (s : string) : string * string :=
  match s with
  | EmptyString => (EmptyString, EmptyString)
  | String c s' =>
      if Ascii.eqb c sep then (EmptyString, s')
      else let '(before, after) := cut sep s' in (String c before, after)
  end.

Fixpoint has_byte (c : ascii) (s : string) : bool :=
  match s with
  | EmptyString => false
  | String c' s' => Ascii.eqb c' c || has_byte c s'
  end.

(** What [ParseQuery] does with one [&]-separated piece of a query. *)
Definition parse_pair (piece : string) : option (string * string) :=
  if has_byte ";" piece then None
  else if bool_decide (piece = "") then None
  else
    let '(key, value) := cut "=" piece in
    key ← QueryUnescape key;
    value ← QueryUnescape value;
    Some (key, value).

(** The key/value pairs [ParseQuery] reads from a query string, in the
    order they stand in the string ([ParseQuery] itself files each value
    under its key in a map). *)
Definition entries (query : string) : list (string * string) :=
  omap parse_pair (split "&" query).

(** The values a query string carries for a key, in order. *)
Definition values_of (key : string) (query : string) : list string :=
  (filter (fun kv => kv.1 = key) (entries query)).*2.

(** Whether a query string has the key at all. *)
Definition has_key (key : string) (query : string) : Prop :=
  key ∈ (entries query).*1.

End url.

(** A statement guarded by a condition, as a change of the variable it
    assigns: [if cond { q.Set(...) }]. *)
Definition when {A} (cond : bool) (body : A -> A) (q : A) : A :=
  if cond then body q else q.

(** ** Addresses

    [Address], its [String] method and the constant [NullAddress] are
    declared in a file of the package that is not part of the sources at
    hand.  The code compares addresses with [!=] and calls [String] on
    them; that much is taken as an interface. *)
Class AddressDecl := {
  Address : Type;
  Address_eq_dec :: EqDecision Address;
  Address_String : Address -> string;
  NullAddress : Address
}.

(** ** opensea-client.go *)

Module Client.
Section encode.
Context `{AddressDecl}.

Record GetAssetsParams := {
  Owner : Address;
  TokenIDs : list Z;
  Collection : string;
  CollectionSlug : string;
  CollectionEditor : string;
  OrderDirection : string;
  AssetContractAddress : Address;
  AssetContractAddresses : list Address;
  Cursor : option Z;
  Limit : option Z;
  IncludeOrders : option bool
}.

(** The value of [q] when [Encode] reaches [return q.Encode()]. *)
Definition EncodeValues (p : GetAssetsParams) : url.Values :=
  let q : url.Values := ∅ in
  let q :=
    when (bool_decide (Address_String (Owner p) ≠ "" ∧ Owner p ≠ NullAddress))
      (fun q => url.Set_ q "owner" (Address_String (Owner p))) q in
  let q :=
    foldl (fun q t => url.Add q "token_ids" (Sprintf "%d" [aInt "int32" t]))
      q (TokenIDs p) in
  let q :=
    when (bool_decide (Collection p ≠ ""))
      (fun q => url.Set_ q "collection" (Collection p)) q in
  let q :=
    when (bool_decide (CollectionSlug p ≠ ""))
      (fun q => url.Set_ q "collection_slug" (Collection p)) q in
  let q :=
    when (bool_decide (CollectionEditor p ≠ ""))
      (fun q => url.Set_ q "collection_editor" (Collection p)) q in
  let q :=
    when (bool_decide (OrderDirection p ≠ ""))
      (fun q => url.Set_ q "order_direction" (OrderDirection p)) q in
  let q :=
    when (bool_decide (Address_String (AssetContractAddress p) ≠ ""
                       ∧ AssetContractAddress p ≠ NullAddress))
      (fun q => url.Set_ q "asset_contract_address"
                  (Address_String (AssetContractAddress p))) q in
  let q := url.Del q "asset_contract_addresses" in
  let q :=
    foldl (fun q a =>
             when (bool_decide (Address_String a ≠ "" ∧ a ≠ NullAddress))
               (fun q => url.Add q "asset_contract_addresses" (Address_String a)) q)
      q (AssetContractAddresses p) in
  let q :=
    match Cursor p with
    | Some c =>
        when (bool_decide (c > 0))
          (fun q => url.Set_ q "cursor" (Sprintf "%d" [aInt "int" c])) q
    | None => q
    end in
  let q :=
    match Limit p with
    | Some l =>
        when (bool_decide (l > 0))
          (fun q => url.Set_ q "limit" (Sprintf "%d" [aInt "int" l])) q
    | None => q
    end in
  let q :=
    match IncludeOrders p with
    | Some b =>
        let '(includeOrders, err) := ParseBool (Sprintf "%v" [aBool b]) in
        when (bool_decide (err ≠ None))
          (fun q => url.Set_ q "include_orders" (FormatBool includeOrders)) q
    | None => q
    end in
  q.

Definition Encode (p : GetAssetsParams) : string := url.Encode (EncodeValues p).

End encode.
End Client.


(** ** The two other revisions of the file kept in the repository

    Both declare [Offset] and [Limit] as plain [int] fields and have no
    [Cursor] and no [IncludeOrders]. *)

Module Part000.
Section encode.
Context `{AddressDecl}.

Record GetAssetsParams := {
  Owner : Address;
  TokenIDs : list Z;
  AssetContractAddress : Address;
  AssetContractAddresses : list Address;
  OrderBy : string;
  OrderDirection : string;
  Offset : Z;
  Limit : Z;
  Collection : string
}.

Definition EncodeValues (p : GetAssetsParams) : url.Values :=
  let q : url.Values := ∅ in
  let q :=
    when (bool_decide (Address_String (Owner p) ≠ "" ∧ Owner p ≠ NullAddress))
      (fun q => url.Set_ q "owner" (Address_String (Owner p))) q in
  let q :=
    foldl (fun q t => url.Add q "token_ids" (Sprintf "%d" [aInt "int32" t]))
      q (TokenIDs p) in
  let q :=
    when (bool_decide (Address_String (AssetContractAddress p) ≠ ""
                       ∧ AssetContractAddress p ≠ NullAddress))
      (fun q => url.Set_ q "asset_contract_address"
                  (Address_String (AssetContractAddress p))) q in
  let q := url.Del q "asset_contract_addresses" in
  let q :=
    foldl (fun q a =>
             when (bool_decide (Address_String a ≠ "" ∧ a ≠ NullAddress))
               (fun q => url.Add q "asset_contract_addresses" (Address_String a)) q)
      q (AssetContractAddresses p) in
  let q :=
    when (bool_decide (OrderBy p ≠ ""))
      (fun q => url.Set_ q "order_by" (OrderBy p)) q in
  let q :=
    when (bool_decide (OrderDirection p ≠ ""))
      (fun q => url.Set_ q "order_direction" (OrderDirection p)) q in
  let q :=
    when (bool_decide (Collection p ≠ ""))
      (fun q => url.Set_ q "collection" (Collection p)) q in
  let q := url.Set_ q "limit" (Sprintf "%d" [aInt "int" (Limit p)]) in
  let q := url.Set_ q "offset" (Sprintf "%d" [aInt "int" (Offset p)]) in
  let q := url.Set_ q "include_orders" "false" in
  q.

Definition Encode (p : GetAssetsParams) : string := url.Encode (EncodeValues p).

End encode.
End Part000.

Module Part001.
Section encode.
Context `{AddressDecl}.

Record GetAssetsParams := {
  Owner : Address;
  TokenIDs : list Z;
  AssetContractAddress : Address;
  AssetContractAddresses : list Address;
  OrderBy : string;
  OrderDirection : string;
  Offset : Z;
  Limit : Z;
  Collection : string
}.

Definition EncodeValues (p : GetAssetsParams) : url.Values :=
  let q : url.Values := ∅ in
  let q :=
    when (bool_decide (AssetContractAddress p ≠ NullAddress))
      (fun q => url.Set_ q "owner" (Address_String (Owner p))) q in
  let q :=
    foldl (fun q t => url.Add q "token_ids" (Sprintf "%d" [aInt "int32" t]))
      q (TokenIDs p) in
  let q :=
    when (bool_decide (AssetContractAddress p ≠ NullAddress))
      (fun q => url.Set_ q "asset_contract_address"
                  (Address_String (AssetContractAddress p))) q in
  let q := url.Del q "asset_contract_addresses" in
  let q :=
    foldl (fun q a =>
             when (bool_decide (a ≠ NullAddress))
               (fun q => url.Add q "asset_contract_addresses"
                           (Sprintf "%d" [aString (Address_String a)])) q)
      q (AssetContractAddresses p) in
  let q :=
    when (bool_decide (OrderBy p ≠ ""))
      (fun q => url.Set_ q "order_by" (OrderBy p)) q in
  let q :=
    when (bool_decide (OrderDirection p ≠ ""))
      (fun q => url.Set_ q "order_direction" (OrderDirection p)) q in
  let q :=
    when (bool_decide (Collection p ≠ ""))
      (fun q => url.Set_ q "collection" (Collection p)) q in
  let q := url.Set_ q "limit" (Sprintf "%d" [aInt "int" (Limit p)]) in
  let q := url.Set_ q "offset" (Sprintf "%d" [aInt "int" (Offset p)]) in
  q.

Definition Encode (p : GetAssetsParams) : string := url.Encode (EncodeValues p).

End encode.
End Part001.

(** ** The client of opensea-client.go *)

Definition mainnetAPI : string := "https://api.opensea.io".
Definition rinkebyAPI : string := "https://rinkeby-api.opensea.io".

Record errorResponse := { Success : bool }.

(** The values of Go's [error] interface that occur on the request path:
    an error made by net/http, io or encoding/json, of which only the
    message is kept; a pointer to an [errorResponse]; the result of
    [fmt.Errorf]. *)
Inductive error :=
  | library_error (msg : string)
  | errorResponse_ptr (e : errorResponse)
  | Errorf (format : string) (args : list arg).

(** The [Error] method; for an [errorResponse] it is the one of the source. *)
Definition Error (e : error) : string :=
  match e with
  | library_error msg => msg
  | errorResponse_ptr _ => "Not success"
  | Errorf format args => Sprintf format args
  end.

Definition StatusOK : Z := 200.

(** ** net/http, io and encoding/json, as far as the client sees them *)

Section http.
(** [context.Context] *)
Context {Ctx : Type}.

Record Request := {
  req_ctx : Ctx;
  Method : string;
  URL : string;
  Header : list (string * string)
}.

(** [req.Header.Add], keys as the source spells them. *)
Definition Header_Add (req : Request) (key value : string) : Request :=
  {| req_ctx := req_ctx req; Method := Method req; URL := URL req;
     Header := (Header req ++ [(key, value)])%list |}.

(** A response: the status code and what [ioutil.ReadAll(resp.Body)]
    returns, the bytes read and the error that ended the reading, if
    any. *)
Record Response := {
  StatusCode : Z;
  Body : string * option error
}.

(** [http.Client]: what [Do] answers to a request.  The field
    [httpClient] is set by the constructors; a nil client is not
    modelled. *)
Definition http_Client : Type := Request -> Response + error.

Record Opensea := {
  API : string;
  APIKey : string;
  httpClient : http_Client
}.
End http.

Arguments Request : clear implicits.
Arguments Response : clear implicits.
Arguments http_Client : clear implicits.
Arguments Opensea : clear implicits.

(** What the client takes from outside the file: the context type, the
    response types [AssetResponse] and [Asset] (declared in another file
    of the package) with their zero values, the checks of
    [http.NewRequestWithContext] (method, context, URL syntax), the
    default transport, and [json.Unmarshal] at the three target types.
    [json.Unmarshal(data, v)] writes through the pointer [v] and returns an
    error: it is a function from the bytes and the value behind [v] to the
    value left there and the error. *)
Class Externals := {
  Ctx : Type;
  TODO : Ctx;
  AssetResponse : Type;
  AssetResponse_zero : AssetResponse;
  Asset : Type;
  Asset_zero : Asset;
  NewRequest_check : Ctx -> string -> string -> option error;
  defaultHttpClient : http_Client Ctx;
  Unmarshal_errorResponse : string -> errorResponse -> errorResponse * option error;
  Unmarshal_AssetResponse : string -> AssetResponse -> AssetResponse * option error;
  Unmarshal_Asset : string -> Asset -> Asset * option error
}.

Module Opensea.
Section client.
Context `{AddressDecl} `{Externals}.

Definition NewRequestWithContext (ctx : Ctx) (method url : string)
  : Request Ctx + error :=
  match NewRequest_check ctx method url with
  | Some err => inr err
  | None => inl {| req_ctx := ctx; Method := method; URL := url; Header := [] |}
  end.

Definition NewOpensea (apiKey : string) : option (Opensea Ctx) * option error :=
  (Some {| API := mainnetAPI; APIKey := apiKey; httpClient := defaultHttpClient |}, None).

Definition NewOpenseaRinkeby (apiKey : string) : option (Opensea Ctx) * option error :=
  (Some {| API := rinkebyAPI; APIKey := apiKey; httpClient := defaultHttpClient |}, None).

(** [getURL]: the bytes of the body (nil is the empty string) and the
    error. *)
Definition getURL (o : Opensea Ctx) (ctx : Ctx) (url : string) : string * option error :=
  let client := httpClient o in
  match NewRequestWithContext ctx "GET" url with
  | inr err => ("", Some err)
  | inl req =>
      let req := Header_Add req "X-API-KEY" (APIKey o) in
      let req := Header_Add req "Accept" "application/json" in
      match client req with
      | inr err => ("", Some err)
      | inl resp =>
          match Body resp with
          | (_, Some err) => ("", Some err)
          | (body, None) =>
              if bool_decide (StatusCode resp ≠ StatusOK) then
                let e := {| Success := false |} in
                let '(e, err) := Unmarshal_errorResponse body e in
                match err with
                | Some err => ("", Some err)
                | None =>
                    if negb (Success e) then ("", Some (errorResponse_ptr e))
                    else ("", Some (Errorf "backend returns status %d msg: %s"
                                           [aInt "int" (StatusCode resp); aString body]))
                end
              else (body, None)
          end
      end
  end.

Definition GetPath (o : Opensea Ctx) (ctx : Ctx) (path : string) : string * option error :=
  getURL o ctx (API o +:+ path).

Definition GetAssetsWithContext (o : Opensea Ctx) (ctx : Ctx)
    (params : Client.GetAssetsParams) : option AssetResponse * option error :=
  let path := "/api/v1/assets/?" +:+ Client.Encode params in
  let '(body, err) := GetPath o ctx path in
  match err with
  | Some err => (None, Some err)
  | None =>
      let ret := AssetResponse_zero in
      let '(ret, err) := Unmarshal_AssetResponse body ret in
      (Some ret, err)
  end.

Definition GetAssets (o : Opensea Ctx) (params : Client.GetAssetsParams)
  : option AssetResponse * option error :=
  let ctx := TODO in
  GetAssetsWithContext o ctx params.

(** The path [GetSingleAssetWithContext] asks for. *)
Definition single_asset_path (assetContractAddress : string) (tokenID : option Z) : string :=
  Sprintf "/api/v1/asset/%s/%s" [aString assetContractAddress; aString (BigInt_String tokenID)].

Definition GetSingleAssetWithContext (o : Opensea Ctx) (ctx : Ctx)
    (assetContractAddress : string) (tokenID : option Z) : option Asset * option error :=
  let path := single_asset_path assetContractAddress tokenID in
  let '(body, err) := GetPath o ctx path in
  match err with
  | Some err => (None, Some err)
  | None =>
      let ret := Asset_zero in
      let '(ret, err) := Unmarshal_Asset body ret in
      (Some ret, err)
  end.

Definition GetSingleAsset (o : Opensea Ctx) (assetContractAddress : string)
    (tokenID : option Z) : option Asset * option error :=
  let ctx := TODO in
  GetSingleAssetWithContext o ctx assetContractAddress tokenID.

End client.
End Opensea.


(** * What the statements are written with *)

(** ** The encoded string *)

(** The bytes [QueryEscape] writes for one byte of its argument. *)
Definition escape_byte (c : ascii) : string :=
  if Ascii.eqb c " " then "+"
  else if url.shouldEscape c then
    String "%" (String (url.hexdigit (N.shiftr (N_of_ascii c) 4))
               (String (url.hexdigit (N.land (N_of_ascii c) 15)) ""))
  else String c "".

(** The pieces of a query string, joined by [&]. *)
Fixpoint join_amp (l : list string) : string :=
  match l with
  | [] => ""
  | [x] => x
  | x :: rest => x +:+ "&" +:+ join_amp rest
  end.

(** One "key=value" piece. *)
Definition render (kv : string * string) : string :=
  url.QueryEscape kv.1 +:+ "=" +:+ url.QueryEscape kv.2.

(** The pairs of a [url.Values], keys in sorted order, the values of one key
    in their order. *)
Definition pairs (v : url.Values) : list (string * string) :=
  k ← url.sorted_keys v; pair k <$> url.Get_all v k.

Definition nonempty (s : string) : Prop := s ≠ "".

(** ** Decimal numbers *)

Definition is_digit (c : ascii) : bool := url.byte_in "0" "9" c.

Fixpoint all_digits (s : string) : bool :=
  match s with
  | EmptyString => true
  | String c s' => is_digit c && all_digits s'
  end.

(** Digits that start with a digit other than [0]. *)
Definition positive_digits (s : string) : bool :=
  match s with
  | EmptyString => false
  | String c s' => url.byte_in "1" "9" c && all_digits s'
  end.

(** A base-10 integer as it is written without anomalies: [0], or digits
    that do not start with [0], with a minus sign in front for a negative
    number; no plus sign, no leading zero, no [-0]. *)
Definition canonical_decimal (s : string) : bool :=
  match s with
  | String "0" EmptyString => true
  | String "-" s' => positive_digits s'
  | _ => positive_digits s
  end.

(** The number a decimal string denotes. *)
Definition decimal_value (s : string) : option Z :=
  Z.of_int <$> NilZero.int_of_string s.

(** [strings.Contains] *)
Fixpoint contains (s substr : string) : bool :=
  String.prefix substr s
  || match s with
     | EmptyString => false
     | String _ s' => contains s' substr
     end.

(** ** Requests and answers *)

Section exchange.
Context `{AddressDecl} `{Externals}.
Implicit Types (o : Opensea Ctx) (ctx : Ctx).

(** The request [getURL] hands to the client. *)
Definition request_sent o ctx (url : string) : Request Ctx :=
  {| req_ctx := ctx; Method := "GET"; URL := url;
     Header := [("X-API-KEY", APIKey o); ("Accept", "application/json")] |}.

(** The request for [url] passes the checks of [NewRequestWithContext],
    the client answers it with a response of the given status, and the
    body is read to its end as [body]. *)
Definition answered o ctx (url : string) (status : Z) (body : string) : Prop :=
  NewRequest_check ctx "GET" url = None
  ∧ ∃ resp, httpClient o (request_sent o ctx url) = inl resp
            ∧ StatusCode resp = status ∧ Body resp = (body, None).

Definition assets_url o (params : Client.GetAssetsParams) : string :=
  API o +:+ "/api/v1/assets/?" +:+ Client.Encode params.

Definition single_asset_url o (assetContractAddress : string) (tokenID : option Z) : string :=
  API o +:+ Opensea.single_asset_path assetContractAddress tokenID.
End exchange.

(** ** Concrete data for closed statements *)

Module Sample.

Definition hexNull : string := "0x0000000000000000000000000000000000000000".

(** Addresses as the text a caller passes, with the all-zero account as
    the null address. *)
Definition addresses : AddressDecl :=
  {| Address := string; Address_String := id; NullAddress := hexNull |}.

#[local] Existing Instance addresses.

(** The zero value of [GetAssetsParams]. *)
Definition noParams : Client.GetAssetsParams :=
  {| Client.Owner := ""; Client.TokenIDs := []; Client.Collection := "";
     Client.CollectionSlug := ""; Client.CollectionEditor := "";
     Client.OrderDirection := ""; Client.AssetContractAddress := "";
     Client.AssetContractAddresses := []; Client.Cursor := None;
     Client.Limit := None; Client.IncludeOrders := None |}.

(** [GetAssetsParams{Limit: &twenty, IncludeOrders: &yes}] *)
Definition withOrders : Client.GetAssetsParams :=
  {| Client.Owner := ""; Client.TokenIDs := []; Client.Collection := "";
     Client.CollectionSlug := ""; Client.CollectionEditor := "";
     Client.OrderDirection := ""; Client.AssetContractAddress := "";
     Client.AssetContractAddresses := []; Client.Cursor := None;
     Client.Limit := Some 20; Client.IncludeOrders := Some true |}.

(** [GetAssetsParams{CollectionSlug: "cool-cats", CollectionEditor: "alice"}] *)
Definition bySlug : Client.GetAssetsParams :=
  {| Client.Owner := ""; Client.TokenIDs := []; Client.Collection := "";
     Client.CollectionSlug := "cool-cats"; Client.CollectionEditor := "alice";
     Client.OrderDirection := ""; Client.AssetContractAddress := "";
     Client.AssetContractAddresses := []; Client.Cursor := None;
     Client.Limit := None; Client.IncludeOrders := None |}.

(** A contract list with an entry left at its zero value. *)
Definition withBlank : Client.GetAssetsParams :=
  {| Client.Owner := ""; Client.TokenIDs := []; Client.Collection := "";
     Client.CollectionSlug := ""; Client.CollectionEditor := "";
     Client.OrderDirection := ""; Client.AssetContractAddress := "";
     Client.AssetContractAddresses := [""; "0x06012c8cf97bead5deae237070f9587f8e7a266d"; hexNull];
     Client.Cursor := None; Client.Limit := None; Client.IncludeOrders := None |}.

(** A full record. *)
Definition busy : Client.GetAssetsParams :=
  {| Client.Owner := "0xabc"; Client.TokenIDs := [1; -5; 0; 2147483647];
     Client.Collection := "a b&c"; Client.CollectionSlug := ""; Client.CollectionEditor := "";
     Client.OrderDirection := "desc"; Client.AssetContractAddress := hexNull;
     Client.AssetContractAddresses := ["0x1"; hexNull; "0x2"];
     Client.Cursor := Some 3; Client.Limit := Some 0; Client.IncludeOrders := None |}.

(** For the revision part_001: the null address as owner, a contract
    given. *)
Definition nullOwner : Part001.GetAssetsParams :=
  {| Part001.Owner := hexNull; Part001.TokenIDs := [];
     Part001.AssetContractAddress := "0xabc"; Part001.AssetContractAddresses := [];
     Part001.OrderBy := ""; Part001.OrderDirection := "";
     Part001.Offset := 0; Part001.Limit := 0; Part001.Collection := "" |}.

End Sample.

(** ** A test double for the network and the decoder *)

Module Mock.

(** The double quote. *)
Definition dq : string := String "034" "".

(** The body [{"success": false}] and its sibling. *)
Definition notSuccessBody : string := "{" +:+ dq +:+ "success" +:+ dq +:+ ": false}".
Definition successBody : string := "{" +:+ dq +:+ "success" +:+ dq +:+ ": true}".

(** A list response without assets, [{"assets": []}]. *)
Definition emptyListBody : string := "{" +:+ dq +:+ "assets" +:+ dq +:+ ": []}".

(** A single asset, [{"name": "cat"}]. *)
Definition assetBody : string := "{" +:+ dq +:+ "name" +:+ dq +:+ ": " +:+ dq +:+ "cat" +:+ dq +:+ "}".

(** The [json.SyntaxError] for the text [oops]. *)
Definition oopsError : error :=
  library_error "invalid character 'o' looking for beginning of value".

(** What the stand-in decoders answer to a body that is none of the
    above. *)
Definition otherBody : error := library_error "unexpected end of JSON input".

(** Stand-ins for [json.Unmarshal] that answer as it does on the bodies
    above and on [oops]: an object decodes into a struct, its unknown keys
    are skipped, and [oops] is a syntax error that leaves the target as
    it was.  In the examples a list response is the list of the names of
    its assets and an asset is its name. *)
Definition decodeEnvelope (body : string) (e : errorResponse) : errorResponse * option error :=
  if bool_decide (body = notSuccessBody) then ({| Success := false |}, None)
  else if bool_decide (body = successBody) then ({| Success := true |}, None)
  else if bool_decide (body ∈ [emptyListBody; assetBody]) then (e, None)
  else if bool_decide (body = "oops") then (e, Some oopsError)
  else (e, Some otherBody).

Definition decodeList (body : string) (r : list string) : list string * option error :=
  if bool_decide (body = emptyListBody) then ([], None)
  else if bool_decide (body ∈ [notSuccessBody; successBody; assetBody]) then (r, None)
  else if bool_decide (body = "oops") then (r, Some oopsError)
  else (r, Some otherBody).

Definition decodeAsset (body : string) (r : string) : string * option error :=
  if bool_decide (body = assetBody) then ("cat", None)
  else if bool_decide (body ∈ [notSuccessBody; successBody; emptyListBody]) then (r, None)
  else if bool_decide (body = "oops") then (r, Some oopsError)
  else (r, Some otherBody).

(** A transport that answers every request with one status and body. *)
Definition transport (status : Z) (body : string) : http_Client unit :=
  fun _ => inl {| StatusCode := status; Body := (body, None) |}.

Definition externals : Externals :=
  {| Ctx := unit; TODO := tt;
     AssetResponse := list string; AssetResponse_zero := [];
     Asset := string; Asset_zero := "";
     NewRequest_check := fun _ _ _ => None;
     defaultHttpClient := transport 200 emptyListBody;
     Unmarshal_errorResponse := decodeEnvelope;
     Unmarshal_AssetResponse := decodeList;
     Unmarshal_Asset := decodeAsset |}.

Definition client (status : Z) (body : string) : Opensea unit :=
  {| API := mainnetAPI; APIKey := "key"; httpClient := transport status body |}.

End Mock.

(** ** The encoded string, field by field *)

(** The pairs of one key. *)
Definition field (key : string) (values : list string) : list (string * string) :=
  pair key <$> values.

(** A value that is written when a condition holds. *)
Definition present (cond : Prop) `{Decision cond} (value : string) : list string :=
  if bool_decide cond then [value] else [].

(** The keys [Encode] of opensea-client.go can write, in byte order. *)
Definition client_keys : list string :=
  ["asset_contract_address"; "asset_contract_addresses"; "collection";
   "collection_editor"; "collection_slug"; "cursor"; "limit";
   "order_direction"; "owner"; "token_ids"].

(** The keys of part_000 and those of part_001. *)
Definition part000_keys : list string :=
  ["asset_contract_address"; "asset_contract_addresses"; "collection";
   "include_orders"; "limit"; "offset"; "order_by"; "order_direction";
   "owner"; "token_ids"].

Definition part001_keys : list string :=
  ["asset_contract_address"; "asset_contract_addresses"; "collection";
   "limit"; "offset"; "order_by"; "order_direction"; "owner"; "token_ids"].

(** The bytes a query string is made of: unreserved characters, the
    escapes [%] and [+], and the separators [&] and [=]. *)
Definition query_byte (c : ascii) : bool :=
  negb (url.shouldEscape c) || bool_decide (c ∈ ["%"; "+"; "&"; "="]%char).

Fixpoint all_bytes (ok : ascii -> bool) (s : string) : bool :=
  match s with
  | EmptyString => true
  | String c s' => ok c && all_bytes ok s'
  end.

(** ** The second request path of opensea-client.go

    [GetAssetsTest], [GetAssetsWithContextTest], [GetPathTest] and
    [getURLTest] go through [http.NewRequest] and [http.DefaultClient] and
    drop every error.  A call on a nil pointer ends the program with a
    run-time panic, which is an outcome of its own. *)

Inductive outcome (A : Type) :=
  | Returns (a : A)
  | Panics (reason : string).

Arguments Returns {A} a.
Arguments Panics {A} reason.

Definition nil_dereference : string :=
  "runtime error: invalid memory address or nil pointer dereference".

(** [http.NewRequest] is [http.NewRequestWithContext] with
    [context.Background()].  [Do] of [http.DefaultClient] returns a
    response pointer and an error; the code looks at the pointer only. *)
Class DefaultExternals `{Externals} := {
  Background : Ctx;
  DefaultClient_Do : Request Ctx -> option (Response) * option error
}.

Definition testKey : string := "ad9d3916aa3a409f92a3bbd6aff78e8d".

Module OpenseaTest.
Section test.
Context `{AddressDecl} `{Externals} `{!DefaultExternals}.

Definition getURLTest (o : Opensea Ctx) (ctx : Ctx) (url : string)
  : outcome (string * option error) :=
  match Opensea.NewRequestWithContext Background "GET" url with
  | inr _ => Panics nil_dereference
  | inl req =>
      let req := Header_Add req "Accept" "application/json" in
      let req := Header_Add req "X-API-KEY" testKey in
      match DefaultClient_Do req with
      | (None, _) => Panics nil_dereference
      | (Some res, _) =>
          let '(body, _) := Body res in
          Returns (body, None)
      end
  end.

Definition GetPathTest (o : Opensea Ctx) (ctx : Ctx) (path : string)
  : outcome (string * option error) :=
  getURLTest o ctx (API o +:+ path).

Definition GetAssetsWithContextTest (o : Opensea Ctx) (ctx : Ctx)
    (params : Client.GetAssetsParams) : outcome (option AssetResponse * option error) :=
  let path := "/api/v1/assets/?" +:+ Client.Encode params in
  match GetPathTest o ctx path with
  | Panics reason => Panics reason
  | Returns (body, err) =>
      match err with
      | Some err => Returns (None, Some err)
      | None =>
          let ret := AssetResponse_zero in
          let '(ret, err) := Unmarshal_AssetResponse body ret in
          Returns (Some ret, err)
      end
  end.

Definition GetAssetsTest (o : Opensea Ctx) (params : Client.GetAssetsParams)
  : outcome (option AssetResponse * option error) :=
  let ctx := TODO in
  GetAssetsWithContextTest o ctx params.

End test.
End OpenseaTest.

(** ** The client of part_000

    [getURL], [GetPath] and the two calls read as in opensea-client.go;
    [GetAssets] first runs the package function [GetAssetsTest], a request
    to a fixed URL through [http.DefaultClient]. *)

Module Part000Client.
Section client.
Context `{AddressDecl} `{Externals} `{!DefaultExternals}.

Definition probeURL : string :=
  "https://api.opensea.io/api/v1/assets?order_direction=desc&limit=20".

Definition GetAssetsTest : outcome unit :=
  let url := probeURL in
  match Opensea.NewRequestWithContext Background "GET" url with
  | inr _ => Panics nil_dereference
  | inl req =>
      let req := Header_Add req "Accept" "application/json" in
      let req := Header_Add req "X-API-KEY" testKey in
      match DefaultClient_Do req with
      | (None, _) => Panics nil_dereference
      | (Some res, _) => Returns tt
      end
  end.

Definition getURL (o : Opensea Ctx) (ctx : Ctx) (url : string) : string * option error :=
  let client := httpClient o in
  match Opensea.NewRequestWithContext ctx "GET" url with
  | inr err => ("", Some err)
  | inl req =>
      let req := Header_Add req "X-API-KEY" (APIKey o) in
      let req := Header_Add req "Accept" "application/json" in
      match client req with
      | inr err => ("", Some err)
      | inl resp =>
          match Body resp with
          | (_, Some err) => ("", Some err)
          | (body, None) =>
              if bool_decide (StatusCode resp ≠ StatusOK) then
                let e := {| Success := false |} in
                let '(e, err) := Unmarshal_errorResponse body e in
                match err with
                | Some err => ("", Some err)
                | None =>
                    if negb (Success e) then ("", Some (errorResponse_ptr e))
                    else ("", Some (Errorf "backend returns status %d msg: %s"
                                           [aInt "int" (StatusCode resp); aString body]))
                end
              else (body, None)
          end
      end
  end.

Definition GetPath (o : Opensea Ctx) (ctx : Ctx) (path : string) : string * option error :=
  getURL o ctx (API o +:+ path).

Definition GetAssetsWithContext (o : Opensea Ctx) (ctx : Ctx)
    (params : Part000.GetAssetsParams) : option AssetResponse * option error :=
  let path := "/api/v1/assets/?" +:+ Part000.Encode params in
  let '(body, err) := GetPath o ctx path in
  match err with
  | Some err => (None, Some err)
  | None =>
      let ret := AssetResponse_zero in
      let '(ret, err) := Unmarshal_AssetResponse body ret in
      (Some ret, err)
  end.

Definition GetAssets (o : Opensea Ctx) (params : Part000.GetAssetsParams)
  : outcome (option AssetResponse * option error) :=
  match GetAssetsTest with
  | Panics reason => Panics reason
  | Returns _ =>
      let ctx := TODO in
      Returns (GetAssetsWithContext o ctx params)
  end.

End client.
End Part000Client.

(** ** The client of part_001

    [getURL] does not look at the error of [NewRequestWithContext] before
    it adds the headers, and writes its formatted error with a capital
    letter. *)

Module Part001Client.
Section client.
Context `{AddressDecl} `{Externals}.

Definition getURL (o : Opensea Ctx) (ctx : Ctx) (url : string)
  : outcome (string * option error) :=
  let client := httpClient o in
  match Opensea.NewRequestWithContext ctx "GET" url with
  | inr _ => Panics nil_dereference
  | inl req =>
      let req := Header_Add req "X-API-KEY" (APIKey o) in
      let req := Header_Add req "Accept" "application/json" in
      match client req with
      | inr err => Returns ("", Some err)
      | inl resp =>
          match Body resp with
          | (_, Some err) => Returns ("", Some err)
          | (body, None) =>
              if bool_decide (StatusCode resp ≠ StatusOK) then
                let e := {| Success := false |} in
                let '(e, err) := Unmarshal_errorResponse body e in
                match err with
                | Some err => Returns ("", Some err)
                | None =>
                    if negb (Success e) then Returns ("", Some (errorResponse_ptr e))
                    else Returns ("", Some (Errorf "Backend returns status %d msg: %s"
                                           [aInt "int" (StatusCode resp); aString body]))
                end
              else Returns (body, None)
          end
      end
  end.

Definition GetPath (o : Opensea Ctx) (ctx : Ctx) (path : string)
  : outcome (string * option error) :=
  getURL o ctx (API o +:+ path).

Definition GetAssetsWithContext (o : Opensea Ctx) (ctx : Ctx)
    (params : Part001.GetAssetsParams) : outcome (option AssetResponse * option error) :=
  let path := "/api/v1/assets/?" +:+ Part001.Encode params in
  match GetPath o ctx path with
  | Panics reason => Panics reason
  | Returns (b, err) =>
      match err with
      | Some err => Returns (None, Some err)
      | None =>
          let ret := AssetResponse_zero in
          let '(ret, err) := Unmarshal_AssetResponse b ret in
          Returns (Some ret, err)
      end
  end.

Definition GetSingleAssetWithContext (o : Opensea Ctx) (ctx : Ctx)
    (assetContractAddress : string) (tokenID : option Z)
  : outcome (option Asset * option error) :=
  let path := Opensea.single_asset_path assetContractAddress tokenID in
  match GetPath o ctx path with
  | Panics reason => Panics reason
  | Returns (b, err) =>
      match err with
      | Some err => Returns (None, Some err)
      | None =>
          let ret := Asset_zero in
          let '(ret, err) := Unmarshal_Asset b ret in
          Returns (Some ret, err)
      end
  end.

End client.
End Part001Client.

(** ** Requests that fail, and more test doubles *)

Section failures.
Context `{AddressDecl} `{Externals}.
Implicit Types (o : Opensea Ctx) (ctx : Ctx).

(** The request for [url] does not get as far as a status: it is refused
    by [NewRequestWithContext], or the client returns an error, or reading
    the body ends in an error. *)
Definition request_fails o ctx (url : string) (err : error) : Prop :=
  NewRequest_check ctx "GET" url = Some err
  ∨ (NewRequest_check ctx "GET" url = None
     ∧ (httpClient o (request_sent o ctx url) = inr err
        ∨ ∃ resp partial, httpClient o (request_sent o ctx url) = inl resp
                          ∧ Body resp = (partial, Some err))).
End failures.

Section default_requests.
Context `{Externals} `{!DefaultExternals}.

(** The request of the second path. *)
Definition test_request (url : string) : Request Ctx :=
  {| req_ctx := Background; Method := "GET"; URL := url;
     Header := [("Accept", "application/json"); ("X-API-KEY", testKey)] |}.

(** [http.DefaultClient] hands back a response for the request to [url]
    whose body, read as far as it goes, is [body]. *)
Definition default_responds (url : string) (status : Z) (body : string) : Prop :=
  NewRequest_check Background "GET" url = None
  ∧ ∃ res rerr derr, DefaultClient_Do (test_request url) = (Some res, derr)
                     ∧ StatusCode res = status ∧ Body res = (body, rerr).

(** The request to [url] is refused, or [http.DefaultClient] hands back no
    response. *)
Definition default_gives_nothing (url : string) : Prop :=
  (∃ err, NewRequest_check Background "GET" url = Some err)
  ∨ (NewRequest_check Background "GET" url = None
     ∧ ∃ derr, DefaultClient_Do (test_request url) = (None, derr)).
End default_requests.

Module Mock2.

(** [NewRequestWithContext] as far as control characters go. *)
Definition has_control (s : string) : bool :=
  negb (all_bytes (fun c => (32 <=? N_of_ascii c)%N && negb (N_of_ascii c =? 127)%N) s).

Definition strict : Externals :=
  {| Ctx := unit; TODO := tt;
     AssetResponse := list string; AssetResponse_zero := [];
     Asset := string; Asset_zero := "";
     NewRequest_check := fun _ _ url =>
       if has_control url
       then Some (library_error "net/url: invalid control character in URL")
       else None;
     defaultHttpClient := Mock.transport 200 Mock.emptyListBody;
     Unmarshal_errorResponse := Mock.decodeEnvelope;
     Unmarshal_AssetResponse := Mock.decodeList;
     Unmarshal_Asset := Mock.decodeAsset |}.

Definition refused : error := library_error "dial tcp: connect: connection refused".
Definition cutShort : error := library_error "unexpected EOF".

(** A client whose transport fails, and one whose bodies break off. *)
Definition down : Opensea unit :=
  {| API := mainnetAPI; APIKey := "key"; httpClient := fun _ => inr refused |}.

Definition breaking (status : Z) (partial : string) : Opensea unit :=
  {| API := mainnetAPI; APIKey := "key";
     httpClient := fun _ => inl {| StatusCode := status; Body := (partial, Some cutShort) |} |}.

(** [http.DefaultClient] answering every request alike, and failing every
    request. *)
Definition answering (status : Z) (body : string) : @DefaultExternals Mock.externals :=
  @Build_DefaultExternals Mock.externals tt
    (fun _ => (Some {| StatusCode := status; Body := (body, None) |}, None)).

Definition offline : @DefaultExternals Mock.externals :=
  @Build_DefaultExternals Mock.externals tt (fun _ => (None, Some refused)).

Definition strict_answering (status : Z) (body : string) : @DefaultExternals strict :=
  @Build_DefaultExternals strict tt
    (fun _ => (Some {| StatusCode := status; Body := (body, None) |}, None)).

(** A client whose API host has a line feed in it. *)
Definition badHost : Opensea unit :=
  {| API := "https://api.opensea.io" +:+ String "010" ""; APIKey := "key";
     httpClient := Mock.transport 200 Mock.emptyListBody |}.


(** The zero values of the parameter records of the older revisions. *)
Definition noParams000 : @Part000.GetAssetsParams Sample.addresses :=
  @Part000.Build_GetAssetsParams Sample.addresses "" [] "" [] "" "" 0 0 "".

Definition noParams001 : @Part001.GetAssetsParams Sample.addresses :=
  @Part001.Build_GetAssetsParams Sample.addresses "" [] "" [] "" "" 0 0 "".

End Mock2.

(** * Properties *)

(** ** Strings *)

Lemma append_cons (c : ascii) (a b : string) : String c a +:+ b = String c (a +:+ b).
Proof. reflexivity. Qed.

Lemma append_nil_l (s : string) : "" +:+ s = s.
Proof. reflexivity. Qed.

Lemma append_nil_r (s : string) : s +:+ "" = s.
Proof. induction s as [|c s IH]; [done | by rewrite append_cons, IH]. Qed.

Lemma append_assoc (a b c : string) : (a +:+ b) +:+ c = a +:+ (b +:+ c).
Proof. induction a as [|x a IH]; [done | by rewrite !append_cons, IH]. Qed.

Lemma length_append (a b : string) :
  String.length (a +:+ b) = (String.length a + String.length b)%nat.
Proof. induction a as [|x a IH]; [done | rewrite append_cons; simpl; by rewrite IH]. Qed.

Lemma has_byte_append (c : ascii) (a b : string) :
  url.has_byte c (a +:+ b) = url.has_byte c a || url.has_byte c b.
Proof.
  induction a as [|x a IH]; [done |].
  rewrite append_cons. simpl. rewrite IH. by rewrite orb_assoc.
Qed.

(** ** Percent-encoding *)

Lemma QueryEscape_cons (c : ascii) (s : string) :
  url.QueryEscape (String c s) = escape_byte c +:+ url.QueryEscape s.
Proof.
  unfold escape_byte. simpl.
  destruct (Ascii.eqb c " "); [done |]. by destruct (url.shouldEscape c).
Qed.

Lemma QueryEscape_app (a b : string) :
  url.QueryEscape (a +:+ b) = url.QueryEscape a +:+ url.QueryEscape b.
Proof.
  induction a as [|c a IH]; [done |].
  by rewrite append_cons, !QueryEscape_cons, IH, append_assoc.
Qed.

Ltac each_byte c :=
  destruct c as [[] [] [] [] [] [] [] []].

Lemma escape_byte_no_sep (c sep : ascii) :
  sep ∈ ["&"; "="; ";"]%char → url.has_byte sep (escape_byte c) = false.
Proof.
  intros Hsep.
  rewrite !elem_of_cons, elem_of_nil in Hsep.
  destruct Hsep as [-> | [-> | [-> | []]]]; each_byte c; vm_compute; reflexivity.
Qed.

Lemma QueryEscape_no_sep (sep : ascii) (s : string) :
  sep ∈ ["&"; "="; ";"]%char → url.has_byte sep (url.QueryEscape s) = false.
Proof.
  intros Hsep. induction s as [|c s IH]; [done |].
  by rewrite QueryEscape_cons, has_byte_append, escape_byte_no_sep, IH.
Qed.

Lemma QueryUnescape_escape_byte (c : ascii) (t : string) :
  url.QueryUnescape (escape_byte c +:+ t) = String c <$> url.QueryUnescape t.
Proof. each_byte c; reflexivity. Qed.

(** Unescaping gives back what was escaped. *)
Lemma QueryUnescape_QueryEscape (s : string) :
  url.QueryUnescape (url.QueryEscape s) = Some s.
Proof.
  induction s as [|c s IH]; [done |].
  by rewrite QueryEscape_cons, QueryUnescape_escape_byte, IH.
Qed.

(** ** The query string as a list of pairs *)

Lemma nonempty_length (s : string) : nonempty s ↔ (0 < String.length s)%nat.
Proof. unfold nonempty. destruct s; simpl; split; (done || lia). Qed.

Lemma render_nonempty (kv : string * string) : nonempty (render kv).
Proof.
  unfold nonempty, render. intros Heq.
  apply (f_equal String.length) in Heq.
  rewrite !length_append in Heq. simpl in Heq. lia.
Qed.

Lemma join_amp_cons (x : string) (l : list string) :
  l ≠ [] → join_amp (x :: l) = x +:+ "&" +:+ join_amp l.
Proof. by destruct l. Qed.

Lemma join_amp_nonempty (l : list string) :
  Forall nonempty l → l ≠ [] → nonempty (join_amp l).
Proof.
  intros Hall Hne. destruct Hall as [|x l Hx Hl]; [done |].
  destruct l as [|y l]; [done |].
  rewrite join_amp_cons by done. apply nonempty_length.
  rewrite length_append. apply nonempty_length in Hx. lia.
Qed.

Lemma join_amp_snoc (l : list string) (x : string) :
  l ≠ [] → join_amp (l ++ [x])%list = join_amp l +:+ "&" +:+ x.
Proof.
  induction l as [|y l IH]; [done |]. intros _.
  destruct l as [|z l]; [done |].
  change ((y :: z :: l) ++ [x])%list with (y :: ((z :: l) ++ [x]))%list.
  rewrite join_amp_cons by done. rewrite IH by done.
  rewrite (join_amp_cons y (z :: l)) by done.
  by rewrite !append_assoc.
Qed.

Lemma write_pair_join (segs : list string) (k x : string) :
  Forall nonempty segs →
  url.write_pair (url.QueryEscape k) (join_amp segs) x = join_amp (segs ++ [render (k, x)])%list.
Proof.
  intros Hall. unfold url.write_pair, render. simpl.
  destruct segs as [|y segs]; [done |].
  rewrite bool_decide_true
    by (apply nonempty_length, join_amp_nonempty; done).
  rewrite join_amp_snoc by done. by rewrite !append_assoc.
Qed.

Lemma inner_loop_join (segs : list string) (k : string) (xs : list string) :
  Forall nonempty segs →
  foldl (url.write_pair (url.QueryEscape k)) (join_amp segs) xs
  = join_amp (segs ++ (render <$> (pair k <$> xs)))%list.
Proof.
  revert segs. induction xs as [|x xs IH]; intros segs Hall; simpl.
  - by rewrite app_nil_r.
  - rewrite write_pair_join by done. rewrite IH.
    + by rewrite <- app_assoc.
    + apply Forall_app. split; [done |]. repeat constructor. apply render_nonempty.
Qed.

Lemma outer_loop_join (v : url.Values) (segs : list string) (ks : list string) :
  Forall nonempty segs →
  foldl (fun buf k => foldl (url.write_pair (url.QueryEscape k)) buf (url.Get_all v k))
        (join_amp segs) ks
  = join_amp (segs ++ (render <$> (k ← ks; pair k <$> url.Get_all v k)))%list.
Proof.
  revert segs. induction ks as [|k ks IH]; intros segs Hall; simpl.
  - by rewrite app_nil_r.
  - rewrite inner_loop_join by done. rewrite IH.
    + by rewrite fmap_app, app_assoc.
    + apply Forall_app. split; [done |].
      apply Forall_fmap, Forall_true. intros kv. apply render_nonempty.
Qed.

(** [Values.Encode] writes the pairs of the map, each as "key=value",
    joined by [&]. *)
Lemma Encode_join (v : url.Values) :
  url.Encode v = join_amp (render <$> pairs v).
Proof.
  unfold url.Encode, pairs.
  change "" with (join_amp []) at 1.
  by rewrite outer_loop_join.
Qed.

Lemma split_no_sep (sep : ascii) (s : string) :
  url.has_byte sep s = false → url.split sep s = [s].
Proof.
  induction s as [|c s IH]; [done |]. simpl.
  destruct (Ascii.eqb c sep); [done |]. simpl. intros Hs. by rewrite IH.
Qed.

Lemma split_app_sep (sep : ascii) (a b : string) :
  url.has_byte sep a = false →
  url.split sep (a +:+ String sep b) = a :: url.split sep b.
Proof.
  induction a as [|c a IH]; intros Ha.
  - rewrite append_nil_l. simpl. by rewrite Ascii.eqb_refl.
  - rewrite append_cons. simpl in *.
    destruct (Ascii.eqb c sep); [done |]. simpl in Ha. by rewrite IH.
Qed.

Lemma split_join_amp (l : list string) :
  l ≠ [] → Forall (fun x => url.has_byte "&" x = false) l →
  url.split "&" (join_amp l) = l.
Proof.
  intros Hne Hall. induction Hall as [|x l Hx Hl IH]; [done |].
  destruct l as [|y l].
  - by apply split_no_sep.
  - rewrite join_amp_cons by done.
    change ("&" +:+ join_amp (y :: l)) with (String "&" (join_amp (y :: l))).
    rewrite split_app_sep by done. by rewrite IH.
Qed.

Lemma cut_app_sep (sep : ascii) (a b : string) :
  url.has_byte sep a = false → url.cut sep (a +:+ String sep b) = (a, b).
Proof.
  induction a as [|c a IH]; intros Ha.
  - rewrite append_nil_l. simpl. by rewrite Ascii.eqb_refl.
  - rewrite append_cons. simpl in *.
    destruct (Ascii.eqb c sep); [done |]. simpl in Ha. by rewrite IH.
Qed.

Lemma render_no_sep (sep : ascii) (kv : string * string) :
  sep ∈ ["&"; ";"]%char → url.has_byte sep (render kv) = false.
Proof.
  intros Hsep. unfold render.
  rewrite !elem_of_cons, elem_of_nil in Hsep.
  destruct Hsep as [-> | [-> | []]];
    rewrite !has_byte_append, !QueryEscape_no_sep; try done;
    rewrite !elem_of_cons; auto.
Qed.

Lemma parse_pair_render (kv : string * string) :
  url.parse_pair (render kv) = Some kv.
Proof.
  unfold url.parse_pair.
  rewrite render_no_sep by (rewrite !elem_of_cons; auto).
  rewrite bool_decide_false by apply render_nonempty.
  unfold render.
  change ("=" +:+ url.QueryEscape kv.2) with (String "=" (url.QueryEscape kv.2)).
  rewrite cut_app_sep by (apply QueryEscape_no_sep; rewrite !elem_of_cons; auto).
  rewrite !QueryUnescape_QueryEscape. simpl. by destruct kv.
Qed.

Lemma omap_parse_pair_render (l : list (string * string)) :
  omap url.parse_pair (render <$> l) = l.
Proof.
  induction l as [|kv l IH]; [done |].
  rewrite fmap_cons.
  change (omap url.parse_pair (render kv :: (render <$> l)))
    with (match url.parse_pair (render kv) with
          | Some y => y :: omap url.parse_pair (render <$> l)
          | None => omap url.parse_pair (render <$> l)
          end).
  by rewrite parse_pair_render, IH.
Qed.

(** Reading back what [Values.Encode] wrote gives the pairs of the map. *)
Lemma entries_Encode (v : url.Values) : url.entries (url.Encode v) = pairs v.
Proof.
  rewrite Encode_join. unfold url.entries.
  destruct (pairs v) as [|kv l] eqn:Hp; [done |].
  rewrite <- Hp. rewrite split_join_amp.
  - apply omap_parse_pair_render.
  - rewrite Hp. done.
  - apply Forall_fmap, Forall_true. intros kv'. apply render_no_sep.
    rewrite !elem_of_cons; auto.
Qed.

Lemma sorted_keys_perm (v : url.Values) : url.sorted_keys v ≡ₚ (map_to_list v).*1.
Proof. apply merge_sort_Permutation. Qed.

#[local] Instance key_le_total : Total url.key_le.
Proof. intros a b. apply String.leb_total. Qed.

(** The keys come out in ascending byte order. *)
Lemma Sorted_sorted_keys (v : url.Values) : Sorted url.key_le (url.sorted_keys v).
Proof. apply (Sorted_merge_sort url.key_le). Qed.

Lemma NoDup_sorted_keys (v : url.Values) : NoDup (url.sorted_keys v).
Proof. rewrite sorted_keys_perm. apply NoDup_fst_map_to_list. Qed.

Lemma elem_of_sorted_keys (v : url.Values) (k : string) :
  k ∈ url.sorted_keys v ↔ is_Some (v !! k).
Proof.
  rewrite sorted_keys_perm, list_elem_of_fmap. split.
  - intros [[k' xs] [-> Hin]]. apply elem_of_map_to_list in Hin. by exists xs.
  - intros [xs Hxs]. exists (k, xs). split; [done |]. by apply elem_of_map_to_list.
Qed.

Lemma filter_key_bind (f : string → list string) (k : string) (ks : list string) :
  NoDup ks →
  filter (fun kv : string * string => kv.1 = k) (k' ← ks; pair k' <$> f k')
  = if bool_decide (k ∈ ks) then pair k <$> f k else [].
Proof.
  assert (∀ (k' : string) (xs : list string), k' ≠ k →
            filter (fun kv : string * string => kv.1 = k) (pair k' <$> xs) = []) as Hother.
  { intros k' xs Hne. induction xs as [|x xs IH]; [done |].
    rewrite fmap_cons, filter_cons_False by done. exact IH. }
  assert (∀ xs : list string,
            filter (fun kv : string * string => kv.1 = k) (pair k <$> xs)
            = pair k <$> xs) as Hsame.
  { intros xs. induction xs as [|x xs IH]; [done |].
    rewrite fmap_cons, filter_cons_True by done. by rewrite IH. }
  induction 1 as [|k' ks Hk' Hnd IH]; [done |].
  rewrite bind_cons, filter_app, IH.
  destruct (decide (k' = k)) as [-> | Hne].
  - rewrite Hsame. rewrite (bool_decide_false (k ∈ ks)) by done.
    rewrite bool_decide_true by left. by rewrite app_nil_r.
  - rewrite Hother by done. simpl.
    destruct (decide (k ∈ ks)) as [Hin | Hnin].
    + rewrite !bool_decide_true; [done | by right | done].
    + rewrite !bool_decide_false; [done | | done].
      rewrite elem_of_cons. intros [-> | Hin]; done.
Qed.

(** The values the encoded string carries for a key are the values the map
    holds for it, in their order. *)
Lemma values_of_Encode (v : url.Values) (k : string) :
  url.values_of k (url.Encode v) = url.Get_all v k.
Proof.
  unfold url.values_of. rewrite entries_Encode. unfold pairs.
  rewrite filter_key_bind by apply NoDup_sorted_keys.
  case_bool_decide as Hk.
  - rewrite <- list_fmap_compose. apply list_fmap_id.
  - rewrite elem_of_sorted_keys in Hk. unfold url.Get_all.
    destruct (v !! k) eqn:Hv; [| done]. destruct Hk. by eexists.
Qed.

Lemma elem_of_pairs (v : url.Values) (k x : string) :
  (k, x) ∈ pairs v ↔ x ∈ url.Get_all v k.
Proof.
  unfold pairs. rewrite list_elem_of_bind. split.
  - intros [k' [Hin _]]. apply list_elem_of_fmap in Hin as [x' [[= -> ->] Hx]]. done.
  - intros Hx. exists k. split; [by apply list_elem_of_fmap_2 |].
    apply elem_of_sorted_keys. unfold url.Get_all in Hx.
    destruct (v !! k); [by eexists |]. by apply elem_of_nil in Hx.
Qed.

(** A query string carries no value for a key exactly when it does not
    have the key. *)
Lemma values_of_nil (k query : string) :
  url.values_of k query = [] ↔ ¬ url.has_key k query.
Proof.
  unfold url.values_of, url.has_key.
  induction (url.entries query) as [|[k' x] l IH]; simpl.
  - split; [intros _ Hin; by apply elem_of_nil in Hin | done].
  - destruct (decide (k' = k)) as [-> | Hne].
    + rewrite filter_cons_True by done. split; [done |].
      intros Hno. destruct Hno. left.
    + rewrite filter_cons_False by done. rewrite IH, elem_of_cons.
      split; [intros Hno [-> | Hin]; done | intros Hno Hin; apply Hno; by right].
Qed.

(** The encoded string has a key exactly when the map holds a value for it. *)
Lemma has_key_Encode (v : url.Values) (k : string) :
  url.has_key k (url.Encode v) ↔ url.Get_all v k ≠ [].
Proof.
  unfold url.has_key. rewrite entries_Encode, list_elem_of_fmap. split.
  - intros [[k' x] [-> Hin]]. apply elem_of_pairs in Hin. simpl.
    intros Hnil. rewrite Hnil in Hin. by apply elem_of_nil in Hin.
  - intros Hne. destruct (url.Get_all v k) as [|x xs] eqn:Hg; [done |].
    exists (k, x). split; [done |]. apply elem_of_pairs. rewrite Hg. left.
Qed.

(** ** Decimal rendering *)

Lemma Sprintf_d_value (x : Z) : decimal_value (Sprintf_d x) = Some x.
Proof.
  unfold decimal_value, Sprintf_d.
  rewrite NilZero.isi.
  - simpl. by rewrite DecimalZ.of_to.
  - destruct x; simpl; try discriminate.
    intros [= Hp]. by apply (Unsigned.to_uint_nonnil p).
  - destruct x; simpl; try discriminate.
    intros [= Hp]. by apply (Unsigned.to_uint_nonnil p).
Qed.

Lemma all_digits_string_of_uint (d : Decimal.uint) :
  all_digits (NilEmpty.string_of_uint d) = true.
Proof. induction d; simpl; done. Qed.

Lemma to_uint_unorm (p : positive) : Decimal.unorm (Pos.to_uint p) = Pos.to_uint p.
Proof.
  rewrite <- (Unsigned.to_of (Pos.to_uint p)).
  by rewrite Unsigned.of_to.
Qed.

Lemma positive_digits_to_uint (p : positive) :
  positive_digits (NilZero.string_of_uint (Pos.to_uint p)) = true.
Proof.
  pose proof (to_uint_unorm p) as Hn.
  pose proof (Unsigned.to_uint_nonzero p) as Hz.
  pose proof (Unsigned.to_uint_nonnil p) as Hnil.
  destruct (Pos.to_uint p) as [|d|d|d|d|d|d|d|d|d|d] eqn:Hd;
    try done; try (simpl; apply all_digits_string_of_uint).
  exfalso. unfold Decimal.unorm in Hn. rewrite nzhead_D0 in Hn.
  destruct (Decimal.nzhead d) as [|u|u|u|u|u|u|u|u|u|u] eqn:Hh; try done.
  by apply (nzhead_nonzero d u).
Qed.

Lemma Sprintf_d_canonical (x : Z) : canonical_decimal (Sprintf_d x) = true.
Proof.
  unfold Sprintf_d. destruct x as [|p|p]; [done | |].
  - simpl Z.to_int. unfold NilZero.string_of_int.
    pose proof (positive_digits_to_uint p) as Hp.
    destruct (NilZero.string_of_uint (Pos.to_uint p)) as [|c s]; [done |].
    unfold canonical_decimal.
    simpl in Hp. apply andb_prop in Hp as [Hc Hs].
    each_byte c; try done; destruct s; try done; simpl; by rewrite ?Hs.
  - simpl Z.to_int. unfold NilZero.string_of_int, canonical_decimal.
    apply positive_digits_to_uint.
Qed.

Lemma Sprintf_int (ty : string) (x : Z) : Sprintf "%d" [aInt ty x] = Sprintf_d x.
Proof. change (Sprintf "%d" [aInt ty x]) with (Sprintf_d x +:+ ""). apply append_nil_r. Qed.

Example Sprintf_d_0 : Sprintf_d 0 = "0".
Proof. reflexivity. Qed.

Example Sprintf_d_neg : Sprintf_d (-2147483648) = "-2147483648".
Proof. reflexivity. Qed.

Example Sprintf_d_big :
  Sprintf_d 123456789012345678901234567890 = "123456789012345678901234567890".
Proof. reflexivity. Qed.

(** ** Reading a [url.Values] after [Set], [Add] and [Del] *)

Section values.
Implicit Types (v q : url.Values) (k key : string).

Lemma Get_all_empty k : url.Get_all ∅ k = [].
Proof. unfold url.Get_all. by rewrite lookup_empty. Qed.

Lemma Get_all_Set_eq v k x : url.Get_all (url.Set_ v k x) k = [x].
Proof. unfold url.Get_all, url.Set_. by rewrite lookup_insert_eq. Qed.

Lemma Get_all_Set_ne v k k' x :
  k ≠ k' → url.Get_all (url.Set_ v k x) k' = url.Get_all v k'.
Proof. intros. unfold url.Get_all, url.Set_. by rewrite lookup_insert_ne. Qed.

Lemma Get_all_Add_eq v k x :
  url.Get_all (url.Add v k x) k = (url.Get_all v k ++ [x])%list.
Proof. unfold url.Get_all at 1, url.Add. by rewrite lookup_insert_eq. Qed.

Lemma Get_all_Add_ne v k k' x :
  k ≠ k' → url.Get_all (url.Add v k x) k' = url.Get_all v k'.
Proof. intros. unfold url.Get_all, url.Add. by rewrite lookup_insert_ne. Qed.

Lemma Get_all_Del_eq v k : url.Get_all (url.Del v k) k = [].
Proof. unfold url.Get_all, url.Del. by rewrite lookup_delete_eq. Qed.

Lemma Get_all_Del_ne v k k' :
  k ≠ k' → url.Get_all (url.Del v k) k' = url.Get_all v k'.
Proof. intros. unfold url.Get_all, url.Del. by rewrite lookup_delete_ne. Qed.

(** A guarded [Set] on another key. *)
Lemma Get_all_when_Set_ne (b : bool) v k k' x :
  k ≠ k' → url.Get_all (when b (fun q => url.Set_ q k x) v) k' = url.Get_all v k'.
Proof. intros. destruct b; [by apply Get_all_Set_ne | done]. Qed.

Lemma Get_all_when_Set_eq (b : bool) v k x :
  url.Get_all (when b (fun q => url.Set_ q k x) v) k
  = if b then [x] else url.Get_all v k.
Proof. destruct b; [by apply Get_all_Set_eq | done]. Qed.

(** A loop of guarded [Add]s on one key appends, in order, the values of
    the elements that pass the guard, and leaves the other keys alone. *)
Lemma Get_all_loop_eq {A} (keep : A → bool) (f : A → string) v k (l : list A) :
  url.Get_all (foldl (fun q a => when (keep a) (fun q => url.Add q k (f a)) q) v l) k
  = (url.Get_all v k ++ (f <$> filter (fun a => keep a = true) l))%list.
Proof.
  revert v. induction l as [|a l IH]; intros v; simpl.
  - by rewrite app_nil_r.
  - rewrite IH. destruct (keep a) eqn:Hk; unfold when.
    + rewrite filter_cons_True by done.
      rewrite Get_all_Add_eq, fmap_cons. by rewrite <- app_assoc.
    + rewrite filter_cons_False; [done |]. by rewrite Hk.
Qed.

Lemma Get_all_loop_ne {A} (keep : A → bool) (f : A → string) v k k' (l : list A) :
  k ≠ k' →
  url.Get_all (foldl (fun q a => when (keep a) (fun q => url.Add q k (f a)) q) v l) k'
  = url.Get_all v k'.
Proof.
  intros Hne. revert v. induction l as [|a l IH]; intros v; simpl; [done |].
  rewrite IH. destruct (keep a); [by apply Get_all_Add_ne | done].
Qed.

(** The unguarded loop. *)
Lemma Get_all_Add_all_eq {A} (f : A → string) v k (l : list A) :
  url.Get_all (foldl (fun q a => url.Add q k (f a)) v l) k
  = (url.Get_all v k ++ (f <$> l))%list.
Proof.
  revert v. induction l as [|a l IH]; intros v; simpl.
  - by rewrite app_nil_r.
  - rewrite IH, Get_all_Add_eq, <- app_assoc. done.
Qed.

Lemma Get_all_Add_all_ne {A} (f : A → string) v k k' (l : list A) :
  k ≠ k' →
  url.Get_all (foldl (fun q a => url.Add q k (f a)) v l) k' = url.Get_all v k'.
Proof.
  intros Hne. revert v. induction l as [|a l IH]; intros v; simpl; [done |].
  by rewrite IH, Get_all_Add_ne.
Qed.
End values.

#[local] Opaque url.Get_all url.Set_ url.Add url.Del.

Lemma ParseBool_Sprintf_v (b : bool) : ParseBool (Sprintf "%v" [aBool b]) = (b, None).
Proof. by destruct b. Qed.

(** Rewrites a [Get_all] of a chain of [Set]s, [Add]s, [Del]s, guarded
    [Set]s and loops down to the steps that touch the key asked for. *)
Ltac read_values :=
  repeat first
    [ rewrite Get_all_Set_eq
    | rewrite Get_all_Set_ne by discriminate
    | rewrite Get_all_when_Set_eq
    | rewrite Get_all_when_Set_ne by discriminate
    | rewrite Get_all_Del_eq
    | rewrite Get_all_Del_ne by discriminate
    | rewrite Get_all_loop_eq
    | rewrite Get_all_loop_ne by discriminate
    | rewrite Get_all_Add_all_eq
    | rewrite Get_all_Add_all_ne by discriminate
    | rewrite Get_all_empty ].

Lemma filter_bool_decide {A} (P : A → Prop) `{∀ a, Decision (P a)} (l : list A) :
  filter (fun a => bool_decide (P a) = true) l = filter P l.
Proof. apply list_filter_iff. intros a. apply bool_decide_eq_true. Qed.

(** ** What [Encode] of opensea-client.go holds for each key *)

Section client_encode.
Context `{AddressDecl}.
Implicit Types p : Client.GetAssetsParams.

Ltac client_values p :=
  unfold Client.EncodeValues;
  destruct (Client.Cursor p), (Client.Limit p), (Client.IncludeOrders p);
  rewrite ?ParseBool_Sprintf_v; read_values; rewrite ?Sprintf_int; try done.

Lemma Client_owner p :
  url.Get_all (Client.EncodeValues p) "owner"
  = if bool_decide (Address_String (Client.Owner p) ≠ "" ∧ Client.Owner p ≠ NullAddress)
    then [Address_String (Client.Owner p)] else [].
Proof. client_values p. Qed.

Lemma Client_token_ids p :
  url.Get_all (Client.EncodeValues p) "token_ids" = Sprintf_d <$> Client.TokenIDs p.
Proof.
  assert (∀ l : list Z, ((fun t => Sprintf "%d" [aInt "int32" t]) <$> l) = Sprintf_d <$> l)
    as Hl by (intros l; apply list_fmap_ext; intros; apply Sprintf_int).
  client_values p; by rewrite Hl.
Qed.

Lemma Client_collection p :
  url.Get_all (Client.EncodeValues p) "collection"
  = if bool_decide (Client.Collection p ≠ "") then [Client.Collection p] else [].
Proof. client_values p. Qed.

Lemma Client_collection_slug p :
  url.Get_all (Client.EncodeValues p) "collection_slug"
  = if bool_decide (Client.CollectionSlug p ≠ "") then [Client.Collection p] else [].
Proof. client_values p. Qed.

Lemma Client_collection_editor p :
  url.Get_all (Client.EncodeValues p) "collection_editor"
  = if bool_decide (Client.CollectionEditor p ≠ "") then [Client.Collection p] else [].
Proof. client_values p. Qed.

Lemma Client_order_direction p :
  url.Get_all (Client.EncodeValues p) "order_direction"
  = if bool_decide (Client.OrderDirection p ≠ "") then [Client.OrderDirection p] else [].
Proof. client_values p. Qed.

Lemma Client_asset_contract_address p :
  url.Get_all (Client.EncodeValues p) "asset_contract_address"
  = if bool_decide (Address_String (Client.AssetContractAddress p) ≠ ""
                    ∧ Client.AssetContractAddress p ≠ NullAddress)
    then [Address_String (Client.AssetContractAddress p)] else [].
Proof. client_values p. Qed.

Lemma Client_asset_contract_addresses p :
  url.Get_all (Client.EncodeValues p) "asset_contract_addresses"
  = Address_String
      <$> filter (fun a => Address_String a ≠ "" ∧ a ≠ NullAddress)
                 (Client.AssetContractAddresses p).
Proof. client_values p; by rewrite filter_bool_decide. Qed.

Lemma Client_cursor p :
  url.Get_all (Client.EncodeValues p) "cursor"
  = match Client.Cursor p with
    | Some c => if bool_decide (c > 0) then [Sprintf_d c] else []
    | None => []
    end.
Proof. client_values p. Qed.

Lemma Client_limit p :
  url.Get_all (Client.EncodeValues p) "limit"
  = match Client.Limit p with
    | Some l => if bool_decide (l > 0) then [Sprintf_d l] else []
    | None => []
    end.
Proof. client_values p. Qed.

(** The branch that would set [include_orders] asks for [err != nil]
    after parsing the text of a bool, which never fails: the key is never
    set. *)
Lemma Client_include_orders p :
  url.Get_all (Client.EncodeValues p) "include_orders" = [].
Proof. client_values p. Qed.
End client_encode.


(** ** What [Encode] of the two older revisions holds *)

Section part000_encode.
Context `{AddressDecl}.
Implicit Types p : Part000.GetAssetsParams.

Ltac part000_values := unfold Part000.EncodeValues; read_values; rewrite ?Sprintf_int; try done.

Lemma Part000_owner p :
  url.Get_all (Part000.EncodeValues p) "owner"
  = if bool_decide (Address_String (Part000.Owner p) ≠ "" ∧ Part000.Owner p ≠ NullAddress)
    then [Address_String (Part000.Owner p)] else [].
Proof. part000_values. Qed.

Lemma Part000_asset_contract_address p :
  url.Get_all (Part000.EncodeValues p) "asset_contract_address"
  = if bool_decide (Address_String (Part000.AssetContractAddress p) ≠ ""
                    ∧ Part000.AssetContractAddress p ≠ NullAddress)
    then [Address_String (Part000.AssetContractAddress p)] else [].
Proof. part000_values. Qed.

Lemma Part000_token_ids p :
  url.Get_all (Part000.EncodeValues p) "token_ids" = Sprintf_d <$> Part000.TokenIDs p.
Proof.
  part000_values. apply list_fmap_ext. intros. apply Sprintf_int.
Qed.

Lemma Part000_asset_contract_addresses p :
  url.Get_all (Part000.EncodeValues p) "asset_contract_addresses"
  = Address_String
      <$> filter (fun a => Address_String a ≠ "" ∧ a ≠ NullAddress)
                 (Part000.AssetContractAddresses p).
Proof. part000_values. by rewrite filter_bool_decide. Qed.

(** This revision sends [limit], [offset] and [include_orders] with every
    request. *)
Lemma Part000_limit p :
  url.Get_all (Part000.EncodeValues p) "limit" = [Sprintf_d (Part000.Limit p)].
Proof. part000_values. Qed.

Lemma Part000_include_orders p :
  url.Get_all (Part000.EncodeValues p) "include_orders" = ["false"].
Proof. part000_values. Qed.
End part000_encode.

Section part001_encode.
Context `{AddressDecl}.
Implicit Types p : Part001.GetAssetsParams.

Ltac part001_values := unfold Part001.EncodeValues; read_values; rewrite ?Sprintf_int; try done.

(** The guard of [owner] looks at [AssetContractAddress]. *)
Lemma Part001_owner p :
  url.Get_all (Part001.EncodeValues p) "owner"
  = if bool_decide (Part001.AssetContractAddress p ≠ NullAddress)
    then [Address_String (Part001.Owner p)] else [].
Proof. part001_values. Qed.

Lemma Part001_asset_contract_address p :
  url.Get_all (Part001.EncodeValues p) "asset_contract_address"
  = if bool_decide (Part001.AssetContractAddress p ≠ NullAddress)
    then [Address_String (Part001.AssetContractAddress p)] else [].
Proof. part001_values. Qed.

Lemma Part001_token_ids p :
  url.Get_all (Part001.EncodeValues p) "token_ids" = Sprintf_d <$> Part001.TokenIDs p.
Proof.
  part001_values. apply list_fmap_ext. intros. apply Sprintf_int.
Qed.

(** The addresses go through [%d]. *)
Lemma Part001_asset_contract_addresses p :
  url.Get_all (Part001.EncodeValues p) "asset_contract_addresses"
  = (fun a => "%!d(string=" +:+ Address_String a +:+ ")")
      <$> filter (fun a => a ≠ NullAddress) (Part001.AssetContractAddresses p).
Proof.
  part001_values. rewrite filter_bool_decide.
  apply list_fmap_ext. intros _ a _.
  change (Sprintf "%d" [aString (Address_String a)])
    with (("%!d(string=" +:+ Address_String a +:+ ")") +:+ "").
  apply append_nil_r.
Qed.
End part001_encode.

(** ** The encoder: settled statements *)

Section encoder.
Context `{AddressDecl}.

(** C7. For every token-ID list, the encoded string carries exactly one
    [token_ids] entry per element, in list order, whose value is the
    element in base 10: the digits denote the element and are canonical
    (no leading zero, no plus sign, no [-0]).  The same holds in the two
    older revisions. *)
Theorem token_ids_one_entry_per_element
    (p : Client.GetAssetsParams) (p0 : Part000.GetAssetsParams)
    (p1 : Part001.GetAssetsParams) :
  url.values_of "token_ids" (Client.Encode p) = Sprintf_d <$> Client.TokenIDs p
  ∧ url.values_of "token_ids" (Part000.Encode p0) = Sprintf_d <$> Part000.TokenIDs p0
  ∧ url.values_of "token_ids" (Part001.Encode p1) = Sprintf_d <$> Part001.TokenIDs p1
  ∧ ∀ t : Z, decimal_value (Sprintf_d t) = Some t ∧ canonical_decimal (Sprintf_d t) = true.
Proof.
  unfold Client.Encode, Part000.Encode, Part001.Encode.
  rewrite !values_of_Encode, Client_token_ids, Part000_token_ids, Part001_token_ids.
  repeat split; [apply Sprintf_d_value | apply Sprintf_d_canonical].
Qed.

(** C5, as the code has it.  For every contract-address list, [Encode]
    of opensea-client.go leaves out exactly the entries whose text is
    empty or that equal the null address, and writes each other entry, in
    order, as one [asset_contract_addresses] pair whose value is the text
    of the address. *)
Theorem asset_contract_addresses_entries (p : Client.GetAssetsParams) :
  url.values_of "asset_contract_addresses" (Client.Encode p)
  = Address_String
      <$> filter (fun a => Address_String a ≠ "" ∧ a ≠ NullAddress)
                 (Client.AssetContractAddresses p).
Proof.
  unfold Client.Encode. by rewrite values_of_Encode, Client_asset_contract_addresses.
Qed.

(** In opensea-client.go a null owner is left out, and so is a null
    contract address. *)
Lemma Client_null_addresses_omitted (p : Client.GetAssetsParams) :
  (Client.Owner p = NullAddress → url.values_of "owner" (Client.Encode p) = [])
  ∧ (Client.AssetContractAddress p = NullAddress →
     url.values_of "asset_contract_address" (Client.Encode p) = []).
Proof.
  unfold Client.Encode.
  rewrite !values_of_Encode, Client_owner, Client_asset_contract_address.
  split; intros Hnull; rewrite bool_decide_false; tauto.
Qed.

Lemma Part000_null_addresses_omitted (p : Part000.GetAssetsParams) :
  (Part000.Owner p = NullAddress → url.values_of "owner" (Part000.Encode p) = [])
  ∧ (Part000.AssetContractAddress p = NullAddress →
     url.values_of "asset_contract_address" (Part000.Encode p) = []).
Proof.
  unfold Part000.Encode.
  rewrite !values_of_Encode, Part000_owner, Part000_asset_contract_address.
  split; intros Hnull; rewrite bool_decide_false; tauto.
Qed.

(** In part_001 the owner is written exactly when the contract address is
    not null, whatever the owner is. *)
Lemma Part001_owner_follows_contract (p : Part001.GetAssetsParams) :
  url.values_of "owner" (Part001.Encode p)
  = if bool_decide (Part001.AssetContractAddress p ≠ NullAddress)
    then [Address_String (Part001.Owner p)] else [].
Proof. unfold Part001.Encode. by rewrite values_of_Encode, Part001_owner. Qed.

(** [cursor] and [limit] are written exactly when the pointer is set and
    the number is positive; [include_orders] is never written. *)
Lemma Client_optional_fields (p : Client.GetAssetsParams) :
  url.values_of "cursor" (Client.Encode p)
  = match Client.Cursor p with
    | Some c => if bool_decide (c > 0) then [Sprintf_d c] else []
    | None => []
    end
  ∧ url.values_of "limit" (Client.Encode p)
    = match Client.Limit p with
      | Some l => if bool_decide (l > 0) then [Sprintf_d l] else []
      | None => []
      end
  ∧ url.values_of "include_orders" (Client.Encode p) = [].
Proof.
  unfold Client.Encode.
  by rewrite !values_of_Encode, Client_cursor, Client_limit, Client_include_orders.
Qed.

(** A slug or an editor makes [Encode] write the key, with the value of
    the field [Collection]. *)
Lemma Client_slug_and_editor (p : Client.GetAssetsParams) :
  url.values_of "collection_slug" (Client.Encode p)
  = (if bool_decide (Client.CollectionSlug p ≠ "") then [Client.Collection p] else [])
  ∧ url.values_of "collection_editor" (Client.Encode p)
    = (if bool_decide (Client.CollectionEditor p ≠ "") then [Client.Collection p] else []).
Proof.
  unfold Client.Encode.
  by rewrite !values_of_Encode, Client_collection_slug, Client_collection_editor.
Qed.
End encoder.

Section encoder_examples.
#[local] Existing Instance Sample.addresses.

Example Encode_noParams : Client.Encode Sample.noParams = "".
Proof. vm_compute. reflexivity. Qed.

Example Encode_busy :
  Client.Encode Sample.busy
  = "asset_contract_addresses=0x1&asset_contract_addresses=0x2&collection=a+b%26c&cursor=3&order_direction=desc&owner=0xabc&token_ids=1&token_ids=-5&token_ids=0&token_ids=2147483647".
Proof. vm_compute. reflexivity. Qed.

(** C1.  With [IncludeOrders] pointing to [true] and [Limit] to 20, the
    encoded string has the limit and no [include_orders]. *)
Theorem include_orders_set_not_encoded :
  Client.IncludeOrders Sample.withOrders = Some true
  ∧ Client.Encode Sample.withOrders = "limit=20"
  ∧ url.values_of "include_orders" (Client.Encode Sample.withOrders) = [].
Proof. vm_compute. done. Qed.

(** C2.  In part_001, a record whose owner is the null address and whose
    contract address is set is encoded with the null owner in it. *)
Theorem part001_null_owner_encoded :
  Part001.Owner Sample.nullOwner = NullAddress
  ∧ Part001.Encode Sample.nullOwner
    = "asset_contract_address=0xabc&limit=0&offset=0&owner=0x0000000000000000000000000000000000000000"
  ∧ url.values_of "owner" (Part001.Encode Sample.nullOwner) = [Sample.hexNull].
Proof. vm_compute. done. Qed.

(** C5.  An entry of the contract list left blank is not the null
    address, and is left out all the same. *)
Lemma blank_contract_address_left_out :
  url.values_of "asset_contract_addresses" (Client.Encode Sample.withBlank)
  = ["0x06012c8cf97bead5deae237070f9587f8e7a266d"]
  ∧ Address_String
      <$> filter (fun a => a ≠ NullAddress) (Client.AssetContractAddresses Sample.withBlank)
    = [""; "0x06012c8cf97bead5deae237070f9587f8e7a266d"]
  ∧ url.values_of "asset_contract_addresses" (Client.Encode Sample.withBlank)
    ≠ Address_String
        <$> filter (fun a => a ≠ NullAddress) (Client.AssetContractAddresses Sample.withBlank).
Proof. vm_compute. done. Qed.

(** C6.  With a slug and an editor but no collection, both keys are
    written with an empty value. *)
Theorem slug_and_editor_lose_their_values :
  Client.CollectionSlug Sample.bySlug = "cool-cats"
  ∧ Client.CollectionEditor Sample.bySlug = "alice"
  ∧ Client.Encode Sample.bySlug = "collection_editor=&collection_slug="
  ∧ url.values_of "collection_slug" (Client.Encode Sample.bySlug) = [""]
  ∧ url.values_of "collection_editor" (Client.Encode Sample.bySlug) = [""].
Proof. vm_compute. done. Qed.
End encoder_examples.

(** ** The request path *)

Section request_path.
Context `{AddressDecl} `{Externals}.
Implicit Types (o : Opensea Ctx) (ctx : Ctx) (resp : Response).

Lemma getURL_answered o ctx url status body :
  answered o ctx url status body →
  Opensea.getURL o ctx url
  = if bool_decide (status ≠ StatusOK) then
      match Unmarshal_errorResponse body {| Success := false |} with
      | (_, Some err) => ("", Some err)
      | (e, None) =>
          if Success e
          then ("", Some (Errorf "backend returns status %d msg: %s"
                                 [aInt "int" status; aString body]))
          else ("", Some (errorResponse_ptr e))
      end
    else (body, None).
Proof.
  intros [Hcheck (resp & Hdo & Hstatus & Hbody)].
  unfold Opensea.getURL, Opensea.NewRequestWithContext. rewrite Hcheck.
  change (Header_Add (Header_Add _ _ _) _ _) with (request_sent o ctx url).
  rewrite Hdo, Hbody, Hstatus.
  case_bool_decide; [| done].
  destruct (Unmarshal_errorResponse body _) as [e [err|]]; [done |].
  by destruct (Success e).
Qed.

Lemma getURL_OK o ctx url body :
  answered o ctx url StatusOK body → Opensea.getURL o ctx url = (body, None).
Proof. intros Ha. by rewrite (getURL_answered _ _ _ _ _ Ha). Qed.

Lemma Errorf_backend (status : Z) (body : string) :
  Error (Errorf "backend returns status %d msg: %s" [aInt "int" status; aString body])
  = "backend returns status " +:+ Sprintf_d status +:+ " msg: " +:+ body.
Proof.
  change (Error _)
    with ("backend returns status " +:+ Sprintf_d status +:+ " msg: " +:+ body +:+ "").
  by rewrite append_nil_r.
Qed.
End request_path.

(** ** Substrings *)

Lemma prefix_append (a b : string) : String.prefix a (a +:+ b) = true.
Proof.
  induction a as [|c a IH]; [by destruct b |].
  rewrite append_cons. simpl. by destruct (ascii_dec c c).
Qed.

Lemma contains_here (a b : string) : contains (a +:+ b) a = true.
Proof.
  assert (∀ s, String.prefix a s = true → contains s a = true) as Hc.
  { intros s Hp. destruct s; simpl in *; by rewrite Hp. }
  apply Hc, prefix_append.
Qed.

Lemma contains_later (pre s a : string) :
  contains s a = true → contains (pre +:+ s) a = true.
Proof.
  intros Hs. induction pre as [|c pre IH]; [done |].
  rewrite append_cons. simpl. rewrite IH. apply orb_true_r.
Qed.

(** ** The client: settled statements *)

Section client_claims.
Context `{AddressDecl} `{Externals}.
Implicit Types (o : Opensea Ctx) (ctx : Ctx).

(** The callers hand the error of [GetPath] on, with a nil result. *)
Lemma GetAssetsWithContext_error o ctx params body err :
  Opensea.getURL o ctx (assets_url o params) = (body, Some err) →
  Opensea.GetAssetsWithContext o ctx params = (None, Some err).
Proof.
  intros Hget. unfold Opensea.GetAssetsWithContext, Opensea.GetPath.
  fold (assets_url o params). by rewrite Hget.
Qed.

Lemma GetSingleAssetWithContext_error o ctx addr tokenID body err :
  Opensea.getURL o ctx (single_asset_url o addr tokenID) = (body, Some err) →
  Opensea.GetSingleAssetWithContext o ctx addr tokenID = (None, Some err).
Proof.
  intros Hget. unfold Opensea.GetSingleAssetWithContext, Opensea.GetPath.
  fold (single_asset_url o addr tokenID). by rewrite Hget.
Qed.

Lemma GetAssetsWithContext_OK o ctx params body :
  answered o ctx (assets_url o params) StatusOK body →
  Opensea.GetAssetsWithContext o ctx params
  = let '(ret, err) := Unmarshal_AssetResponse body AssetResponse_zero in (Some ret, err).
Proof.
  intros Ha. unfold Opensea.GetAssetsWithContext, Opensea.GetPath.
  fold (assets_url o params). by rewrite (getURL_OK _ _ _ _ Ha).
Qed.

Lemma GetSingleAssetWithContext_OK o ctx addr tokenID body :
  answered o ctx (single_asset_url o addr tokenID) StatusOK body →
  Opensea.GetSingleAssetWithContext o ctx addr tokenID
  = let '(ret, err) := Unmarshal_Asset body Asset_zero in (Some ret, err).
Proof.
  intros Ha. unfold Opensea.GetSingleAssetWithContext, Opensea.GetPath.
  fold (single_asset_url o addr tokenID). by rewrite (getURL_OK _ _ _ _ Ha).
Qed.

(** C3, as the code has it.  For a response with a status other than
    200: when the body does not decode into the envelope, [getURL]
    returns the error of the decoder as it is; when the body decodes and
    [success] is true, it returns an error whose message contains the
    status code in decimal and the raw body; when the body decodes and
    [success] is false, it returns the envelope as the error. *)
Theorem non_OK_status_errors o ctx url status body :
  answered o ctx url status body →
  status ≠ StatusOK →
  match Unmarshal_errorResponse body {| Success := false |} with
  | (_, Some err) => Opensea.getURL o ctx url = ("", Some err)
  | (e, None) =>
      if Success e then
        ∃ err, Opensea.getURL o ctx url = ("", Some err)
               ∧ contains (Error err) (Sprintf_d status) = true
               ∧ contains (Error err) body = true
      else Opensea.getURL o ctx url = ("", Some (errorResponse_ptr e))
  end.
Proof.
  intros Ha Hstatus. rewrite (getURL_answered _ _ _ _ _ Ha).
  rewrite bool_decide_true by done.
  destruct (Unmarshal_errorResponse body _) as [e [err|]]; [done |].
  destruct (Success e); [| done].
  eexists. split; [done |]. rewrite Errorf_backend. split.
  - apply contains_later, contains_here.
  - apply contains_later, contains_later, contains_later.
    rewrite <- (append_nil_r body) at 1. apply contains_here.
Qed.


(** C8.  For a response with a status outside 200..299 whose body decodes
    to the envelope with [success] false, the list call returns a nil
    result and a non-nil error, the envelope, whose message is the fixed
    text [Not success]. *)
Theorem not_success_envelope_is_the_error o ctx params status body e :
  answered o ctx (assets_url o params) status body →
  ¬ (200 ≤ status ≤ 299) →
  Unmarshal_errorResponse body {| Success := false |} = (e, None) →
  Success e = false →
  Opensea.GetAssetsWithContext o ctx params = (None, Some (errorResponse_ptr e))
  ∧ Error (errorResponse_ptr e) = "Not success".
Proof.
  intros Ha Hstatus Hdec Hfalse. split; [| done].
  apply (GetAssetsWithContext_error _ _ _ "").
  rewrite (getURL_answered _ _ _ _ _ Ha).
  rewrite bool_decide_true by (unfold StatusOK; lia).
  by rewrite Hdec, Hfalse.
Qed.

(** C9.  For every contract address and every integer token ID, however
    large, the path of the single-asset request is
    [/api/v1/asset/{address}/{id}] with the ID in decimal: the digits
    denote the ID and are canonical.  The request goes to the API host
    followed by that path: when it is answered with status 200, the call
    returns what the decoder makes of the body. *)
Theorem single_asset_path_decimal o ctx (assetContractAddress : string) (tokenID : Z) body :
  Opensea.single_asset_path assetContractAddress (Some tokenID)
  = "/api/v1/asset/" +:+ assetContractAddress +:+ "/" +:+ Sprintf_d tokenID
  ∧ decimal_value (Sprintf_d tokenID) = Some tokenID
  ∧ canonical_decimal (Sprintf_d tokenID) = true
  ∧ (answered o ctx
       (API o +:+ "/api/v1/asset/" +:+ assetContractAddress +:+ "/" +:+ Sprintf_d tokenID)
       StatusOK body →
     Opensea.GetSingleAssetWithContext o ctx assetContractAddress (Some tokenID)
     = let '(ret, err) := Unmarshal_Asset body Asset_zero in (Some ret, err)).
Proof.
  assert (Opensea.single_asset_path assetContractAddress (Some tokenID)
          = "/api/v1/asset/" +:+ assetContractAddress +:+ "/" +:+ Sprintf_d tokenID) as Hpath.
  { change (Opensea.single_asset_path _ _)
      with ("/api/v1/asset/" +:+ assetContractAddress +:+ "/" +:+ Sprintf_d tokenID +:+ "").
    by rewrite append_nil_r. }
  split; [done |]. split; [apply Sprintf_d_value |]. split; [apply Sprintf_d_canonical |].
  rewrite <- Hpath. apply GetSingleAssetWithContext_OK.
Qed.

(** C10.  For a response with status 200 whose body the decoder rejects,
    both calls return the result they allocated, as the decoder left it,
    together with the decoder's error: the result is not nil. *)
Theorem decode_failure_keeps_result
    o ctx params addr tokenID body (ret : AssetResponse) (asset : Asset) (err : error) :
  (answered o ctx (assets_url o params) StatusOK body →
   Unmarshal_AssetResponse body AssetResponse_zero = (ret, Some err) →
   Opensea.GetAssetsWithContext o ctx params = (Some ret, Some err))
  ∧ (answered o ctx (single_asset_url o addr tokenID) StatusOK body →
     Unmarshal_Asset body Asset_zero = (asset, Some err) →
     Opensea.GetSingleAssetWithContext o ctx addr tokenID = (Some asset, Some err)).
Proof.
  split; intros Ha Hdec.
  - by rewrite (GetAssetsWithContext_OK _ _ _ _ Ha), Hdec.
  - by rewrite (GetSingleAssetWithContext_OK _ _ _ _ _ Ha), Hdec.
Qed.
End client_claims.

(** ** The client on the test double *)

Section client_examples.
#[local] Existing Instance Sample.addresses.
#[local] Existing Instance Mock.externals.

Lemma mock_answered (status : Z) (body url : string) :
  answered (Mock.client status body) tt url status body.
Proof. split; [reflexivity |]. eexists. repeat split. Defined.

Example assets_url_noParams :
  assets_url (Mock.client 200 Mock.emptyListBody) Sample.noParams
  = "https://api.opensea.io/api/v1/assets/?".
Proof. vm_compute. reflexivity. Qed.

(** HTTP 200 with a list response: a decoded value and no error. *)
Example list_call_OK :
  Opensea.GetAssetsWithContext (Mock.client 200 Mock.emptyListBody) tt Sample.noParams
  = (Some [], None).
Proof. vm_compute. reflexivity. Qed.

(** C3.  HTTP 500 with the body [oops]: the envelope decoder rejects the
    body, and the error returned is the decoder's, whose message has
    neither the status code nor the body in it. *)
Lemma undecodable_body_error_lacks_status_and_body :
  (Unmarshal_errorResponse "oops" {| Success := false |}).2 = Some Mock.oopsError
  ∧ Opensea.getURL (Mock.client 500 "oops") tt "https://api.opensea.io/api/v1/assets/?"
    = ("", Some Mock.oopsError)
  ∧ Error Mock.oopsError = "invalid character 'o' looking for beginning of value"
  ∧ contains (Error Mock.oopsError) "500" = false
  ∧ contains (Error Mock.oopsError) "oops" = false.
Proof. vm_compute. done. Qed.

(** HTTP 500 with an envelope that reports success: the formatted error. *)
Lemma non_OK_status_errors_witness :
  ∃ err,
    Opensea.getURL (Mock.client 500 Mock.successBody) tt "https://api.opensea.io/api/v1/assets/?"
    = ("", Some err)
    ∧ contains (Error err) "500" = true
    ∧ contains (Error err) Mock.successBody = true.
Proof.
  exact (@non_OK_status_errors Mock.externals (Mock.client 500 Mock.successBody) tt
           "https://api.opensea.io/api/v1/assets/?" 500 Mock.successBody
           (mock_answered _ _ _) ltac:(discriminate)).
Defined.



(** HTTP 404 with the body [{"success": false}]. *)
Lemma not_success_envelope_witness :
  Opensea.GetAssetsWithContext (Mock.client 404 Mock.notSuccessBody) tt Sample.noParams
  = (None, Some (errorResponse_ptr {| Success := false |}))
  ∧ Error (errorResponse_ptr {| Success := false |}) = "Not success".
Proof.
  apply (@not_success_envelope_is_the_error Sample.addresses Mock.externals
           (Mock.client 404 Mock.notSuccessBody) tt
           Sample.noParams 404 Mock.notSuccessBody).
  - apply mock_answered.
  - lia.
  - reflexivity.
  - reflexivity.
Defined.

(** A token ID beyond 64 bits. *)
Lemma single_asset_path_witness :
  Opensea.single_asset_path "0xabc" (Some 123456789012345678901234567890)
  = "/api/v1/asset/0xabc/123456789012345678901234567890"
  ∧ Opensea.GetSingleAssetWithContext (Mock.client 200 Mock.assetBody) tt "0xabc"
      (Some 123456789012345678901234567890)
    = (Some "cat", None).
Proof.
  pose proof (@single_asset_path_decimal Mock.externals
                (Mock.client 200 Mock.assetBody) tt "0xabc"
                123456789012345678901234567890 Mock.assetBody) as (Hpath & _ & _ & Hcall).
  split; [exact Hpath |]. apply Hcall, mock_answered.
Defined.

(** HTTP 200 with the body [oops]. *)
Lemma decode_failure_keeps_result_witness :
  Opensea.GetAssetsWithContext (Mock.client 200 "oops") tt Sample.noParams
  = (Some [], Some Mock.oopsError)
  ∧ Opensea.GetSingleAssetWithContext (Mock.client 200 "oops") tt "0xabc" (Some 7)
    = (Some "", Some Mock.oopsError).
Proof.
  pose proof (@decode_failure_keeps_result Sample.addresses Mock.externals
                (Mock.client 200 "oops") tt Sample.noParams
                "0xabc" (Some 7) "oops" [] "" Mock.oopsError) as [Hlist Hone].
  split.
  - apply Hlist; [apply mock_answered | reflexivity].
  - apply Hone; [apply mock_answered | reflexivity].
Defined.
End client_examples.

(** * More of the package *)

(** ** The order of the keys *)

Lemma compare_not_Gt_trans (a b c : string) :
  String.compare a b ≠ Gt → String.compare b c ≠ Gt → String.compare a c ≠ Gt.
Proof.
  revert b c. induction a as [|x a IH]; intros [|y b] [|z c]; simpl; try done.
  unfold Ascii.compare.
  destruct (N.compare_spec (N_of_ascii x) (N_of_ascii y)) as [Hxy | Hxy | Hxy];
    destruct (N.compare_spec (N_of_ascii y) (N_of_ascii z)) as [Hyz | Hyz | Hyz];
    try done.
  - rewrite Hxy, Hyz, N.compare_refl. apply IH.
  - intros _ _. rewrite Hxy. by apply N.compare_lt_iff in Hyz as ->.
  - intros _ _. rewrite <- Hyz. by apply N.compare_lt_iff in Hxy as ->.
  - intros _ _. assert (N_of_ascii x < N_of_ascii z)%N as Hxz by lia.
    by apply N.compare_lt_iff in Hxz as ->.
Qed.

#[local] Instance key_le_trans : Transitive url.key_le.
Proof.
  intros a b c. unfold url.key_le, String.leb. intros Hab Hbc.
  pose proof (compare_not_Gt_trans a b c) as Hac.
  destruct (String.compare a b), (String.compare b c), (String.compare a c);
    try done; exfalso; by apply Hac.
Qed.

#[local] Instance key_le_antisym : AntiSymm (=) url.key_le.
Proof. intros a b. apply String.leb_antisym. Qed.

Lemma StronglySorted_filter {A} (R : relation A) (P : A → Prop)
    `{∀ x, Decision (P x)} (l : list A) :
  StronglySorted R l → StronglySorted R (filter P l).
Proof.
  induction 1 as [|x l Hl IH Hx]; [constructor |].
  destruct (decide (P x)).
  - rewrite filter_cons_True by done. constructor; [done |].
    apply Forall_forall. intros y Hy. apply list_elem_of_filter in Hy as [_ Hy].
    rewrite Forall_forall in Hx. by apply Hx.
  - by rewrite filter_cons_False.
Qed.

Lemma Get_all_is_Some (v : url.Values) (k : string) :
  url.Get_all v k ≠ [] → is_Some (v !! k).
Proof.
  assert (url.Get_all v k = default [] (v !! k)) as -> by reflexivity.
  destruct (v !! k); [by eexists | done].
Qed.

Section pairs_over.
Context (v : url.Values).

Let holds (k : string) : Prop := url.Get_all v k ≠ [].

Lemma bind_holds (l : list string) :
  (k ← l; pair k <$> url.Get_all v k) = (k ← filter holds l; pair k <$> url.Get_all v k).
Proof.
  induction l as [|k l IH]; [done |].
  rewrite bind_cons. destruct (decide (holds k)) as [Hk | Hk].
  - rewrite filter_cons_True by done. by rewrite bind_cons, IH.
  - rewrite filter_cons_False by done. rewrite <- IH.
    unfold holds in Hk. apply dec_stable in Hk. by rewrite Hk.
Qed.

(** The pairs of a map can be read along any duplicate-free ascending list
    of keys that has every key the map holds values for. *)
Lemma pairs_over (ks : list string) :
  StronglySorted url.key_le ks → NoDup ks →
  (∀ k, url.Get_all v k ≠ [] → k ∈ ks) →
  pairs v = (k ← ks; pair k <$> url.Get_all v k).
Proof.
  intros Hsorted Hnodup Hall. unfold pairs.
  rewrite (bind_holds (url.sorted_keys v)), (bind_holds ks). f_equal.
  apply (StronglySorted_unique url.key_le).
  - apply StronglySorted_filter, Sorted_StronglySorted; [apply _ |].
    apply Sorted_sorted_keys.
  - by apply StronglySorted_filter.
  - apply NoDup_Permutation.
    + apply NoDup_filter, NoDup_sorted_keys.
    + by apply NoDup_filter.
    + intros k. rewrite !list_elem_of_filter, elem_of_sorted_keys. split.
      * intros [Hk _]. split; [done |]. by apply Hall.
      * intros [Hk _]. split; [done |]. by apply Get_all_is_Some.
Qed.
End pairs_over.

Lemma client_keys_sorted : StronglySorted url.key_le client_keys ∧ NoDup client_keys.
Proof.
  split.
  - repeat (constructor; [| by repeat (constructor; [by vm_compute |])]). constructor.
  - apply (bool_decide_unpack _). by vm_compute.
Qed.

Lemma part_keys_sorted :
  (StronglySorted url.key_le part000_keys ∧ NoDup part000_keys)
  ∧ (StronglySorted url.key_le part001_keys ∧ NoDup part001_keys).
Proof.
  repeat split;
    try (apply (bool_decide_unpack _); by vm_compute);
    repeat (constructor; [| by repeat (constructor; [by vm_compute |])]); constructor.
Qed.

(** As [read_values], for a key that is known to differ from the ones
    written. *)
Ltac read_other_key :=
  repeat first
    [ rewrite Get_all_Set_ne by done
    | rewrite Get_all_when_Set_ne by done
    | rewrite Get_all_Del_ne by done
    | rewrite Get_all_loop_ne by done
    | rewrite Get_all_Add_all_ne by done
    | rewrite Get_all_empty ].

Lemma when_false {A} (body : A → A) (q : A) : when false body q = q.
Proof. reflexivity. Qed.

Section no_other_key.
Context `{AddressDecl}.

Lemma Client_no_other_key (p : Client.GetAssetsParams) (k : string) :
  url.Get_all (Client.EncodeValues p) k ≠ [] → k ∈ client_keys.
Proof.
  intros Hk. destruct (decide (k ∈ client_keys)) as [| Hnot]; [done |].
  destruct Hk. unfold client_keys in Hnot.
  rewrite !not_elem_of_cons in Hnot. destruct_and!.
  unfold Client.EncodeValues.
  destruct (Client.Cursor p), (Client.Limit p), (Client.IncludeOrders p);
    rewrite ?ParseBool_Sprintf_v;
    try change (bool_decide (@None NumError ≠ None)) with false;
    rewrite ?when_false; read_other_key; done.
Qed.

Lemma Part000_no_other_key (p : Part000.GetAssetsParams) (k : string) :
  url.Get_all (Part000.EncodeValues p) k ≠ [] → k ∈ part000_keys.
Proof.
  intros Hk. destruct (decide (k ∈ part000_keys)) as [| Hnot]; [done |].
  destruct Hk. unfold part000_keys in Hnot.
  rewrite !not_elem_of_cons in Hnot. destruct_and!.
  unfold Part000.EncodeValues. read_other_key. done.
Qed.

Lemma Part001_no_other_key (p : Part001.GetAssetsParams) (k : string) :
  url.Get_all (Part001.EncodeValues p) k ≠ [] → k ∈ part001_keys.
Proof.
  intros Hk. destruct (decide (k ∈ part001_keys)) as [| Hnot]; [done |].
  destruct Hk. unfold part001_keys in Hnot.
  rewrite !not_elem_of_cons in Hnot. destruct_and!.
  unfold Part001.EncodeValues. read_other_key. done.
Qed.
End no_other_key.

(** ** The other keys of the older revisions *)

Section older_fields.
Context `{AddressDecl}.

Ltac older_values :=
  unfold Part000.EncodeValues, Part001.EncodeValues;
  read_values; rewrite ?Sprintf_int; try done.

Lemma Part000_strings (p : Part000.GetAssetsParams) :
  url.Get_all (Part000.EncodeValues p) "order_by" = present (Part000.OrderBy p ≠ "") (Part000.OrderBy p)
  ∧ url.Get_all (Part000.EncodeValues p) "order_direction"
    = present (Part000.OrderDirection p ≠ "") (Part000.OrderDirection p)
  ∧ url.Get_all (Part000.EncodeValues p) "collection"
    = present (Part000.Collection p ≠ "") (Part000.Collection p)
  ∧ url.Get_all (Part000.EncodeValues p) "offset" = [Sprintf_d (Part000.Offset p)].
Proof. unfold present. repeat split; older_values. Qed.

Lemma Part001_strings (p : Part001.GetAssetsParams) :
  url.Get_all (Part001.EncodeValues p) "order_by" = present (Part001.OrderBy p ≠ "") (Part001.OrderBy p)
  ∧ url.Get_all (Part001.EncodeValues p) "order_direction"
    = present (Part001.OrderDirection p ≠ "") (Part001.OrderDirection p)
  ∧ url.Get_all (Part001.EncodeValues p) "collection"
    = present (Part001.Collection p ≠ "") (Part001.Collection p)
  ∧ url.Get_all (Part001.EncodeValues p) "limit" = [Sprintf_d (Part001.Limit p)]
  ∧ url.Get_all (Part001.EncodeValues p) "offset" = [Sprintf_d (Part001.Offset p)].
Proof. unfold present. repeat split; older_values. Qed.
End older_fields.

(** ** The whole of the encoded string *)

Lemma bind_empty {A B} (f : A → list B) : ([] ≫= f) = [].
Proof. reflexivity. Qed.

Section whole_string.
Context `{AddressDecl}.

(** X1.  [Encode] of opensea-client.go, read back pair by pair, is the
    fields in the byte order of their keys: the contract address, the
    contract list, the collection, the editor and the slug (both with the
    value of [Collection]), the cursor and the limit when set and positive,
    the order direction, the owner, the token IDs; an address is written
    when its text is not empty and it is not the null address, a string
    when it is not empty.  Nothing else is ever in the string. *)
Theorem Client_Encode_entries (p : Client.GetAssetsParams) :
  url.entries (Client.Encode p)
  = concat
      [ field "asset_contract_address"
          (present (Address_String (Client.AssetContractAddress p) ≠ ""
                    ∧ Client.AssetContractAddress p ≠ NullAddress)
                   (Address_String (Client.AssetContractAddress p)));
        field "asset_contract_addresses"
          (Address_String
             <$> filter (fun a => Address_String a ≠ "" ∧ a ≠ NullAddress)
                        (Client.AssetContractAddresses p));
        field "collection" (present (Client.Collection p ≠ "") (Client.Collection p));
        field "collection_editor"
          (present (Client.CollectionEditor p ≠ "") (Client.Collection p));
        field "collection_slug"
          (present (Client.CollectionSlug p ≠ "") (Client.Collection p));
        field "cursor"
          (match Client.Cursor p with
           | Some c => present (c > 0) (Sprintf_d c)
           | None => []
           end);
        field "limit"
          (match Client.Limit p with
           | Some l => present (l > 0) (Sprintf_d l)
           | None => []
           end);
        field "order_direction"
          (present (Client.OrderDirection p ≠ "") (Client.OrderDirection p));
        field "owner"
          (present (Address_String (Client.Owner p) ≠ "" ∧ Client.Owner p ≠ NullAddress)
                   (Address_String (Client.Owner p)));
        field "token_ids" (Sprintf_d <$> Client.TokenIDs p) ].
Proof.
  unfold Client.Encode. rewrite entries_Encode.
  rewrite (pairs_over _ client_keys);
    [| apply client_keys_sorted | apply client_keys_sorted | apply Client_no_other_key].
  unfold client_keys. rewrite !bind_cons, bind_empty.
  rewrite Client_asset_contract_address, Client_asset_contract_addresses,
    Client_collection, Client_collection_editor, Client_collection_slug,
    Client_cursor, Client_limit, Client_order_direction, Client_owner, Client_token_ids.
  unfold concat, field, present. by rewrite !app_nil_r.
Qed.

(** X2.  [Encode] of part_000, read back pair by pair: the addresses and
    the token IDs as in opensea-client.go, the strings [collection],
    [order_by] and [order_direction] when not empty, and with every record
    [include_orders=false], [limit] and [offset], whatever their values. *)
Theorem Part000_Encode_entries (p : Part000.GetAssetsParams) :
  url.entries (Part000.Encode p)
  = concat
      [ field "asset_contract_address"
          (present (Address_String (Part000.AssetContractAddress p) ≠ ""
                    ∧ Part000.AssetContractAddress p ≠ NullAddress)
                   (Address_String (Part000.AssetContractAddress p)));
        field "asset_contract_addresses"
          (Address_String
             <$> filter (fun a => Address_String a ≠ "" ∧ a ≠ NullAddress)
                        (Part000.AssetContractAddresses p));
        field "collection" (present (Part000.Collection p ≠ "") (Part000.Collection p));
        field "include_orders" ["false"];
        field "limit" [Sprintf_d (Part000.Limit p)];
        field "offset" [Sprintf_d (Part000.Offset p)];
        field "order_by" (present (Part000.OrderBy p ≠ "") (Part000.OrderBy p));
        field "order_direction"
          (present (Part000.OrderDirection p ≠ "") (Part000.OrderDirection p));
        field "owner"
          (present (Address_String (Part000.Owner p) ≠ "" ∧ Part000.Owner p ≠ NullAddress)
                   (Address_String (Part000.Owner p)));
        field "token_ids" (Sprintf_d <$> Part000.TokenIDs p) ].
Proof.
  unfold Part000.Encode. rewrite entries_Encode.
  rewrite (pairs_over _ part000_keys);
    [| apply part_keys_sorted | apply part_keys_sorted | apply Part000_no_other_key].
  unfold part000_keys. rewrite !bind_cons, bind_empty.
  destruct (Part000_strings p) as (-> & -> & -> & ->).
  rewrite Part000_asset_contract_address, Part000_asset_contract_addresses,
    Part000_include_orders, Part000_limit, Part000_owner, Part000_token_ids.
  unfold concat, field, present. by rewrite !app_nil_r.
Qed.

(** X3.  [Encode] of part_001, read back pair by pair: the contract
    address and the owner are both written exactly when the contract
    address is not the null address (a blank one included), every entry of
    the contract list other than the null address is written as the text
    fmt makes of a string under [%d], and [limit] and [offset] go with
    every record. *)
Theorem Part001_Encode_entries (p : Part001.GetAssetsParams) :
  url.entries (Part001.Encode p)
  = concat
      [ field "asset_contract_address"
          (present (Part001.AssetContractAddress p ≠ NullAddress)
                   (Address_String (Part001.AssetContractAddress p)));
        field "asset_contract_addresses"
          ((fun a => "%!d(string=" +:+ Address_String a +:+ ")")
             <$> filter (fun a => a ≠ NullAddress) (Part001.AssetContractAddresses p));
        field "collection" (present (Part001.Collection p ≠ "") (Part001.Collection p));
        field "limit" [Sprintf_d (Part001.Limit p)];
        field "offset" [Sprintf_d (Part001.Offset p)];
        field "order_by" (present (Part001.OrderBy p ≠ "") (Part001.OrderBy p));
        field "order_direction"
          (present (Part001.OrderDirection p ≠ "") (Part001.OrderDirection p));
        field "owner"
          (present (Part001.AssetContractAddress p ≠ NullAddress)
                   (Address_String (Part001.Owner p)));
        field "token_ids" (Sprintf_d <$> Part001.TokenIDs p) ].
Proof.
  unfold Part001.Encode. rewrite entries_Encode.
  rewrite (pairs_over _ part001_keys);
    [| apply part_keys_sorted | apply part_keys_sorted | apply Part001_no_other_key].
  unfold part001_keys. rewrite !bind_cons, bind_empty.
  destruct (Part001_strings p) as (-> & -> & -> & -> & ->).
  rewrite Part001_asset_contract_address, Part001_asset_contract_addresses,
    Part001_owner, Part001_token_ids.
  unfold concat, field, present. by rewrite !app_nil_r.
Qed.
End whole_string.

(** ** The bytes of the encoded string *)

Lemma all_bytes_append (ok : ascii → bool) (a b : string) :
  all_bytes ok (a +:+ b) = all_bytes ok a && all_bytes ok b.
Proof.
  induction a as [|c a IH]; [done |].
  rewrite append_cons. simpl. by rewrite IH, andb_assoc.
Qed.

Lemma escape_byte_query_bytes (c : ascii) : all_bytes query_byte (escape_byte c) = true.
Proof. each_byte c; vm_compute; reflexivity. Qed.

Lemma QueryEscape_query_bytes (s : string) : all_bytes query_byte (url.QueryEscape s) = true.
Proof.
  induction s as [|c s IH]; [done |].
  by rewrite QueryEscape_cons, all_bytes_append, escape_byte_query_bytes, IH.
Qed.

Lemma join_amp_query_bytes (l : list string) :
  Forall (fun x => all_bytes query_byte x = true) l →
  all_bytes query_byte (join_amp l) = true.
Proof.
  induction 1 as [|x l Hx Hl IH]; [done |].
  destruct l as [|y l]; [done |].
  rewrite join_amp_cons by done.
  by rewrite !all_bytes_append, Hx, IH.
Qed.

Lemma Encode_query_bytes (v : url.Values) : all_bytes query_byte (url.Encode v) = true.
Proof.
  rewrite Encode_join. apply join_amp_query_bytes, Forall_fmap, Forall_true.
  intros kv. unfold render. simpl.
  by rewrite !all_bytes_append, !QueryEscape_query_bytes.
Qed.

Lemma Encode_reads_back (v : url.Values) :
  url.Encode v = join_amp (render <$> url.entries (url.Encode v)).
Proof. by rewrite entries_Encode, <- Encode_join. Qed.

Section encoded_text.
Context `{AddressDecl}.

(** X4.  Whatever the fields hold, the string [Encode] returns, in each of
    the three revisions, is made of unreserved characters, [%], [+], [&]
    and [=] only, and it is its own pairs written as escaped [key=value]
    pieces with one [&] between two pieces: no separator comes first, last
    or twice. *)
Theorem Encode_is_a_clean_query
    (p : Client.GetAssetsParams) (p0 : Part000.GetAssetsParams)
    (p1 : Part001.GetAssetsParams) :
  (all_bytes query_byte (Client.Encode p) = true
   ∧ Client.Encode p = join_amp (render <$> url.entries (Client.Encode p)))
  ∧ (all_bytes query_byte (Part000.Encode p0) = true
     ∧ Part000.Encode p0 = join_amp (render <$> url.entries (Part000.Encode p0)))
  ∧ (all_bytes query_byte (Part001.Encode p1) = true
     ∧ Part001.Encode p1 = join_amp (render <$> url.entries (Part001.Encode p1))).
Proof.
  unfold Client.Encode, Part000.Encode, Part001.Encode.
  repeat split; (apply Encode_query_bytes || apply Encode_reads_back).
Qed.
End encoded_text.

(** ** The request path, case by case *)

Section request_cases.
Context `{AddressDecl} `{Externals}.
Implicit Types (o : Opensea Ctx) (ctx : Ctx).

Lemma getURL_fails o ctx url err :
  request_fails o ctx url err → Opensea.getURL o ctx url = ("", Some err).
Proof.
  unfold Opensea.getURL, Opensea.NewRequestWithContext.
  intros [Hcheck | [Hcheck [Hdo | (resp & partial & Hdo & Hbody)]]]; rewrite Hcheck; [done | |];
    change (Header_Add (Header_Add _ _ _) _ _) with (request_sent o ctx url);
    rewrite Hdo; [done |]. by rewrite Hbody.
Qed.

(** What [getURL] returns tells how far the request got. *)
Lemma getURL_cases o ctx url :
  match Opensea.getURL o ctx url with
  | (body, None) => answered o ctx url StatusOK body
  | (body, Some err) =>
      body = ""
      ∧ (request_fails o ctx url err
         ∨ ∃ status b, answered o ctx url status b ∧ status ≠ StatusOK)
  end.
Proof.
  unfold Opensea.getURL, Opensea.NewRequestWithContext.
  destruct (NewRequest_check ctx "GET" url) as [err|] eqn:Hcheck.
  { split; [done |]. left. by left. }
  change (Header_Add (Header_Add _ _ _) _ _) with (request_sent o ctx url).
  destruct (httpClient o (request_sent o ctx url)) as [resp | err] eqn:Hdo.
  2: { split; [done |]. left. right. split; [done |]. by left. }
  destruct (Body resp) as [body [err|]] eqn:Hbody.
  { split; [done |]. left. right. split; [done |]. right. by exists resp, body. }
  assert (answered o ctx url (StatusCode resp) body) as Hans.
  { split; [done |]. by exists resp. }
  case_bool_decide as Hstatus.
  - assert (∃ status b, answered o ctx url status b ∧ status ≠ StatusOK) as Hnon
      by (by exists (StatusCode resp), body).
    destruct (Unmarshal_errorResponse body _) as [e [err|]]; [by auto |].
    destruct (Success e); simpl; by auto.
  - by rewrite <- Hstatus.
Qed.
End request_cases.

Section request_claims.
Context `{AddressDecl} `{Externals}.
Implicit Types (o : Opensea Ctx) (ctx : Ctx).

(** X5.  A request that does not get as far as a status (the URL is
    refused by [NewRequestWithContext], the client returns an error, or
    reading the body ends in an error, whatever the status and whatever was
    read) makes both calls return a nil result and that very error. *)
Theorem request_failures_are_returned o ctx params addr tokenID err :
  (request_fails o ctx (assets_url o params) err →
   Opensea.GetAssetsWithContext o ctx params = (None, Some err))
  ∧ (request_fails o ctx (single_asset_url o addr tokenID) err →
     Opensea.GetSingleAssetWithContext o ctx addr tokenID = (None, Some err)).
Proof.
  split; intros Hfails.
  - apply (GetAssetsWithContext_error _ _ _ ""). by apply getURL_fails.
  - apply (GetSingleAssetWithContext_error _ _ _ _ ""). by apply getURL_fails.
Qed.

(** X6.  [getURL] returns bytes without an error only for a response with
    status 200 whose body was read to its end, and then the bytes are that
    body; with an error, the bytes are nil. *)
Theorem getURL_bytes_mean_status_OK o ctx url :
  match Opensea.getURL o ctx url with
  | (body, None) => answered o ctx url StatusOK body
  | (body, Some _) => body = ""
  end.
Proof.
  pose proof (getURL_cases o ctx url) as Hcases.
  destruct (Opensea.getURL o ctx url) as [body [err|]]; [by destruct Hcases | done].
Qed.

(** X7.  A result that is not nil tells that the response had status 200:
    the result and the error returned with it are what the decoder made of
    the body of such a response, for both calls. *)
Theorem result_means_status_OK o ctx params addr tokenID
    (ret : AssetResponse) (asset : Asset) (err : option error) :
  (Opensea.GetAssetsWithContext o ctx params = (Some ret, err) →
   ∃ body, answered o ctx (assets_url o params) StatusOK body
           ∧ Unmarshal_AssetResponse body AssetResponse_zero = (ret, err))
  ∧ (Opensea.GetSingleAssetWithContext o ctx addr tokenID = (Some asset, err) →
     ∃ body, answered o ctx (single_asset_url o addr tokenID) StatusOK body
             ∧ Unmarshal_Asset body Asset_zero = (asset, err)).
Proof.
  split.
  - unfold Opensea.GetAssetsWithContext, Opensea.GetPath. fold (assets_url o params).
    pose proof (getURL_cases o ctx (assets_url o params)) as Hcases.
    destruct (Opensea.getURL o ctx (assets_url o params)) as [body [e|]]; [done |].
    destruct (Unmarshal_AssetResponse body AssetResponse_zero) as [r e] eqn:Hdec.
    intros [= -> ->]. by exists body.
  - unfold Opensea.GetSingleAssetWithContext, Opensea.GetPath.
    fold (single_asset_url o addr tokenID).
    pose proof (getURL_cases o ctx (single_asset_url o addr tokenID)) as Hcases.
    destruct (Opensea.getURL o ctx (single_asset_url o addr tokenID)) as [body [e|]]; [done |].
    destruct (Unmarshal_Asset body Asset_zero) as [r e] eqn:Hdec.
    intros [= -> ->]. by exists body.
Qed.

(** X8.  A response with a status other than 200 never gives a result:
    whatever its body, both calls return nil and an error. *)
Theorem other_status_gives_no_result o ctx params addr tokenID status body :
  status ≠ StatusOK →
  (answered o ctx (assets_url o params) status body →
   ∃ err, Opensea.GetAssetsWithContext o ctx params = (None, Some err))
  ∧ (answered o ctx (single_asset_url o addr tokenID) status body →
     ∃ err, Opensea.GetSingleAssetWithContext o ctx addr tokenID = (None, Some err)).
Proof.
  intros Hstatus.
  assert (∀ url, answered o ctx url status body →
                 ∃ err, Opensea.getURL o ctx url = ("", Some err)) as Hget.
  { intros url Ha. rewrite (getURL_answered _ _ _ _ _ Ha).
    rewrite bool_decide_true by done.
    destruct (Unmarshal_errorResponse body _) as [e [err|]]; [by eexists |].
    destruct (Success e); by eexists. }
  split; intros Ha; destruct (Hget _ Ha) as [err Herr]; exists err.
  - by apply (GetAssetsWithContext_error _ _ _ "").
  - by apply (GetSingleAssetWithContext_error _ _ _ _ "").
Qed.


(** X10.  A client made by [NewOpensea] lists assets with a GET to
    [https://api.opensea.io/api/v1/assets/?] followed by the encoded
    parameters, with the key it was made with in [X-API-KEY], in the
    context [TODO], through the default transport; one made by
    [NewOpenseaRinkeby] does the same at
    [https://rinkeby-api.opensea.io].  Both constructors return a client
    and no error. *)
Theorem constructors_set_host_and_key (apiKey : string) params (resp : Response) body :
  StatusCode resp = StatusOK → Body resp = (body, None) →
  (let url := "https://api.opensea.io" +:+ "/api/v1/assets/?" +:+ Client.Encode params in
   NewRequest_check TODO "GET" url = None →
   defaultHttpClient
     {| req_ctx := TODO; Method := "GET"; URL := url;
        Header := [("X-API-KEY", apiKey); ("Accept", "application/json")] |} = inl resp →
   ∃ o, Opensea.NewOpensea apiKey = (Some o, None)
        ∧ Opensea.GetAssets o params
          = let '(ret, err) := Unmarshal_AssetResponse body AssetResponse_zero in (Some ret, err))
  ∧ (let url := "https://rinkeby-api.opensea.io" +:+ "/api/v1/assets/?" +:+ Client.Encode params in
     NewRequest_check TODO "GET" url = None →
     defaultHttpClient
       {| req_ctx := TODO; Method := "GET"; URL := url;
          Header := [("X-API-KEY", apiKey); ("Accept", "application/json")] |} = inl resp →
     ∃ o, Opensea.NewOpenseaRinkeby apiKey = (Some o, None)
          ∧ Opensea.GetAssets o params
            = let '(ret, err) := Unmarshal_AssetResponse body AssetResponse_zero in (Some ret, err)).
Proof.
  intros Hstatus Hbody. split; intros url Hcheck Hdo; eexists; (split; [reflexivity |]);
    unfold Opensea.GetAssets; apply GetAssetsWithContext_OK;
    (split; [exact Hcheck |]); exists resp; by repeat split.
Qed.
End request_claims.

(** ** The second request path *)

Section test_path.
Context `{AddressDecl} `{Externals} `{!DefaultExternals}.
Implicit Types (o : Opensea Ctx) (ctx : Ctx).

Lemma getURLTest_responds o ctx url status body :
  default_responds url status body →
  OpenseaTest.getURLTest o ctx url = Returns (body, None).
Proof.
  intros [Hcheck (res & rerr & derr & Hdo & _ & Hbody)].
  unfold OpenseaTest.getURLTest, Opensea.NewRequestWithContext. rewrite Hcheck.
  change (Header_Add (Header_Add _ _ _) _ _) with (test_request url).
  by rewrite Hdo, Hbody.
Qed.

Lemma getURLTest_nothing o ctx url :
  default_gives_nothing url → OpenseaTest.getURLTest o ctx url = Panics nil_dereference.
Proof.
  unfold OpenseaTest.getURLTest, Opensea.NewRequestWithContext.
  intros [[err Hcheck] | [Hcheck [derr Hdo]]]; rewrite Hcheck; [done |].
  change (Header_Add (Header_Add _ _ _) _ _) with (test_request url).
  by rewrite Hdo.
Qed.

(** X11.  On the second path the status does not count and no error of
    the request is ever returned: whenever [http.DefaultClient] hands back
    a response, with any status, and even when reading its body ended in
    an error, [GetAssetsWithContextTest] returns a result that is not nil
    and what the decoder says of the bytes that were read. *)
Theorem test_path_decodes_any_response o ctx params status body :
  default_responds (assets_url o params) status body →
  OpenseaTest.GetAssetsWithContextTest o ctx params
  = Returns (let '(ret, err) := Unmarshal_AssetResponse body AssetResponse_zero in
             (Some ret, err)).
Proof.
  intros Hresp. unfold OpenseaTest.GetAssetsWithContextTest, OpenseaTest.GetPathTest.
  fold (assets_url o params). rewrite (getURLTest_responds _ _ _ _ _ Hresp).
  by destruct (Unmarshal_AssetResponse body AssetResponse_zero).
Qed.

(** X12.  On the second path a request that gets no response (the URL is
    refused, or [http.DefaultClient] returns no response) ends in a nil
    pointer panic instead of an error. *)
Theorem test_path_panics_without_response o ctx params :
  default_gives_nothing (assets_url o params) →
  OpenseaTest.GetAssetsWithContextTest o ctx params = Panics nil_dereference.
Proof.
  intros Hnothing. unfold OpenseaTest.GetAssetsWithContextTest, OpenseaTest.GetPathTest.
  fold (assets_url o params). by rewrite (getURLTest_nothing _ _ _ Hnothing).
Qed.

(** X13.  The second path uses neither the key, nor the client, nor the
    context it is given: two receivers with the same API host get the same
    outcome, in any two contexts. *)
Theorem test_path_ignores_key_client_and_context o o' ctx ctx' params :
  API o = API o' →
  OpenseaTest.GetAssetsWithContextTest o ctx params
  = OpenseaTest.GetAssetsWithContextTest o' ctx' params.
Proof.
  intros Hapi. unfold OpenseaTest.GetAssetsWithContextTest, OpenseaTest.GetPathTest,
    OpenseaTest.getURLTest. by rewrite Hapi.
Qed.

(** X14.  [GetAssets] of part_000 first sends the fixed probe request
    through [http.DefaultClient]: when the probe gets no response the call
    panics, whatever the receiver and the parameters; when it gets one,
    with any status, the call is [GetAssetsWithContext] in the context
    [TODO]. *)
Theorem part000_GetAssets_runs_the_probe o (params : Part000.GetAssetsParams) status body :
  (default_gives_nothing Part000Client.probeURL →
   Part000Client.GetAssets o params = Panics nil_dereference)
  ∧ (default_responds Part000Client.probeURL status body →
     Part000Client.GetAssets o params
     = Returns (Part000Client.GetAssetsWithContext o TODO params)).
Proof.
  unfold Part000Client.GetAssets, Part000Client.GetAssetsTest, Opensea.NewRequestWithContext.
  split.
  - intros [[err Hcheck] | [Hcheck [derr Hdo]]]; rewrite Hcheck; [done |].
    change (Header_Add (Header_Add _ _ _) _ _) with (test_request Part000Client.probeURL).
    by rewrite Hdo.
  - intros [Hcheck (res & rerr & derr & Hdo & _ & _)]. rewrite Hcheck.
    change (Header_Add (Header_Add _ _ _) _ _) with (test_request Part000Client.probeURL).
    by rewrite Hdo.
Qed.
End test_path.

(** ** The request path of part_001 *)

Section part001_path.
Context `{AddressDecl} `{Externals}.
Implicit Types (o : Opensea Ctx) (ctx : Ctx).

Lemma part001_getURL_refused o ctx url err :
  NewRequest_check ctx "GET" url = Some err →
  Part001Client.getURL o ctx url = Panics nil_dereference.
Proof.
  intros Hcheck. unfold Part001Client.getURL, Opensea.NewRequestWithContext.
  by rewrite Hcheck.
Qed.

(** X15.  In part_001 a URL that [NewRequestWithContext] refuses makes
    both calls panic on a nil pointer, where opensea-client.go returns the
    error. *)
Theorem part001_refused_url_panics o ctx (params : Part001.GetAssetsParams) addr tokenID err :
  (NewRequest_check ctx "GET" (API o +:+ "/api/v1/assets/?" +:+ Part001.Encode params)
   = Some err →
   Part001Client.GetAssetsWithContext o ctx params = Panics nil_dereference)
  ∧ (NewRequest_check ctx "GET" (single_asset_url o addr tokenID) = Some err →
     Part001Client.GetSingleAssetWithContext o ctx addr tokenID = Panics nil_dereference
     ∧ Opensea.GetSingleAssetWithContext o ctx addr tokenID = (None, Some err)).
Proof.
  split; intros Hcheck.
  - unfold Part001Client.GetAssetsWithContext, Part001Client.GetPath.
    by rewrite (part001_getURL_refused _ _ _ _ Hcheck).
  - split.
    + unfold Part001Client.GetSingleAssetWithContext, Part001Client.GetPath.
      fold (single_asset_url o addr tokenID).
      by rewrite (part001_getURL_refused _ _ _ _ Hcheck).
    + apply (GetSingleAssetWithContext_error _ _ _ _ ""), getURL_fails. by left.
Qed.

(** X16.  For a URL that [NewRequestWithContext] accepts, [getURL] of
    part_001 returns, and returns what [getURL] of opensea-client.go
    returns, or the same formatted error with a capital letter at its
    head. *)
Theorem part001_getURL_agrees o ctx url :
  NewRequest_check ctx "GET" url = None →
  ∃ r, Part001Client.getURL o ctx url = Returns r
       ∧ (r = Opensea.getURL o ctx url
          ∨ ∃ args,
              Opensea.getURL o ctx url
              = ("", Some (Errorf "backend returns status %d msg: %s" args))
              ∧ r = ("", Some (Errorf "Backend returns status %d msg: %s" args))).
Proof.
  intros Hcheck.
  unfold Part001Client.getURL, Opensea.getURL, Opensea.NewRequestWithContext.
  rewrite Hcheck.
  destruct (httpClient o _) as [resp | err]; [| by eauto].
  destruct (Body resp) as [body [err|]]; [by eauto |].
  case_bool_decide; [| by eauto].
  destruct (Unmarshal_errorResponse body _) as [e [err|]]; [by eauto |].
  destruct (Success e); simpl; [| by eauto].
  eexists. split; [reflexivity |]. right. by eexists.
Qed.
End part001_path.

(** ** The path of a single asset *)

Lemma append_inj_r (p a b : string) : p +:+ a = p +:+ b → a = b.
Proof.
  induction p as [|c p IH]; [done |]. rewrite !append_cons. intros [= Heq]. by apply IH.
Qed.

Lemma has_byte_string_of_uint (d : Decimal.uint) :
  url.has_byte "/" (NilEmpty.string_of_uint d) = false.
Proof. induction d; simpl; done. Qed.

Lemma has_byte_Sprintf_d (x : Z) : url.has_byte "/" (Sprintf_d x) = false.
Proof.
  unfold Sprintf_d.
  assert (∀ d, url.has_byte "/" (NilZero.string_of_uint d) = false) as Hu
    by (intros d; destruct d; try done; apply (has_byte_string_of_uint (_ _))).
  destruct x; simpl; try done; apply Hu.
Qed.

Lemma last_slash_splits (a a' d d' : string) :
  url.has_byte "/" d = false → url.has_byte "/" d' = false →
  a +:+ String "/" d = a' +:+ String "/" d' → a = a' ∧ d = d'.
Proof.
  intros Hd Hd'. revert a'. induction a as [|c a IH]; intros [|c' a'].
  - rewrite !append_nil_l. by intros [= ->].
  - rewrite append_nil_l, append_cons. intros [= <- ->].
    rewrite has_byte_append in Hd. simpl in Hd. by rewrite orb_true_r in Hd.
  - rewrite append_nil_l, append_cons. intros [= -> <-].
    rewrite has_byte_append in Hd'. simpl in Hd'. by rewrite orb_true_r in Hd'.
  - rewrite !append_cons. intros [= -> Heq]. destruct (IH _ Heq) as [-> ->]. done.
Qed.

Section single_path.
Context `{Externals}.

(** X17.  The path of a single-asset request tells the contract address
    and the token ID apart: two requests with the same path have the same
    address and the same ID. *)
Theorem single_asset_path_injective (a a' : string) (z z' : Z) :
  Opensea.single_asset_path a (Some z) = Opensea.single_asset_path a' (Some z') →
  a = a' ∧ z = z'.
Proof.
  assert (∀ b x, Opensea.single_asset_path b (Some x)
                 = "/api/v1/asset/" +:+ b +:+ String "/" (Sprintf_d x)) as Hpath.
  { intros b x.
    change (Opensea.single_asset_path _ _)
      with ("/api/v1/asset/" +:+ b +:+ "/" +:+ Sprintf_d x +:+ "").
    by rewrite append_nil_r. }
  rewrite !Hpath. intros Heq. apply append_inj_r in Heq.
  apply last_slash_splits in Heq as [-> Hd]; [| apply has_byte_Sprintf_d..].
  split; [done |].
  pose proof (Sprintf_d_value z) as Hz. rewrite Hd, Sprintf_d_value in Hz. by injection Hz.
Qed.
End single_path.

(** ** More runs on the test doubles *)

Section more_examples.
#[local] Existing Instance Sample.addresses.

Let url0 : string := "https://api.opensea.io/api/v1/assets/?".

Lemma request_failures_are_returned_witness :
  @Opensea.GetAssetsWithContext Sample.addresses Mock.externals Mock2.down tt Sample.noParams
  = (None, Some Mock2.refused)
  ∧ @Opensea.GetSingleAssetWithContext Mock.externals
      (Mock2.breaking 200 "{") tt "0xabc" (Some 7)
    = (None, Some Mock2.cutShort).
Proof.
  split.
  - apply (proj1 (@request_failures_are_returned Sample.addresses Mock.externals
                    Mock2.down tt Sample.noParams "" None Mock2.refused)).
    right. split; [reflexivity |]. left. reflexivity.
  - apply (proj2 (@request_failures_are_returned Sample.addresses Mock.externals
                    (Mock2.breaking 200 "{") tt Sample.noParams "0xabc" (Some 7)
                    Mock2.cutShort)).
    right. split; [reflexivity |]. right. eexists _, "{". split; reflexivity.
Defined.

Lemma result_means_status_OK_witness :
  ∃ body,
    @answered Mock.externals (Mock.client 200 Mock.emptyListBody) tt url0 StatusOK body
    ∧ Mock.decodeList body [] = ([], None).
Proof.
  apply (proj1 (@result_means_status_OK Sample.addresses Mock.externals
                  (Mock.client 200 Mock.emptyListBody) tt Sample.noParams "" None
                  [] "" None)).
  vm_compute. reflexivity.
Defined.

Lemma other_status_gives_no_result_witness :
  (∃ err, @Opensea.GetAssetsWithContext Sample.addresses Mock.externals
            (Mock.client 404 Mock.emptyListBody) tt Sample.noParams = (None, Some err))
  ∧ (∃ err, @Opensea.GetSingleAssetWithContext Mock.externals
              (Mock.client 404 Mock.assetBody) tt "0xabc" (Some 7) = (None, Some err)).
Proof.
  split.
  - apply (proj1 (@other_status_gives_no_result Sample.addresses Mock.externals
                    (Mock.client 404 Mock.emptyListBody) tt Sample.noParams "" None
                    404 Mock.emptyListBody ltac:(discriminate))).
    apply mock_answered.
  - apply (proj2 (@other_status_gives_no_result Sample.addresses Mock.externals
                    (Mock.client 404 Mock.assetBody) tt Sample.noParams "0xabc" (Some 7)
                    404 Mock.assetBody ltac:(discriminate))).
    apply mock_answered.
Defined.


Lemma constructors_set_host_and_key_witness :
  ∃ o, @Opensea.NewOpensea Mock.externals "secret" = (Some o, None)
       ∧ @Opensea.GetAssets Sample.addresses Mock.externals o Sample.noParams = (Some [], None).
Proof.
  apply (proj1 (@constructors_set_host_and_key Sample.addresses Mock.externals "secret"
                  Sample.noParams
                  {| StatusCode := 200; Body := (Mock.emptyListBody, None) |}
                  Mock.emptyListBody eq_refl eq_refl));
    reflexivity.
Defined.

Lemma test_path_decodes_any_response_witness :
  @OpenseaTest.GetAssetsWithContextTest Sample.addresses Mock.externals
    (Mock2.answering 404 Mock.notSuccessBody)
    (Mock.client 200 Mock.emptyListBody) tt Sample.noParams
  = Returns (Some [], None).
Proof.
  apply (@test_path_decodes_any_response Sample.addresses Mock.externals
           (Mock2.answering 404 Mock.notSuccessBody)
           (Mock.client 200 Mock.emptyListBody) tt Sample.noParams 404 Mock.notSuccessBody).
  split; [reflexivity |]. eexists _, None, None. repeat split.
Defined.

Lemma test_path_panics_without_response_witness :
  @OpenseaTest.GetAssetsWithContextTest Sample.addresses Mock.externals Mock2.offline
    (Mock.client 200 Mock.emptyListBody) tt Sample.noParams
  = Panics nil_dereference.
Proof.
  apply (@test_path_panics_without_response Sample.addresses Mock.externals Mock2.offline).
  right. split; [reflexivity |]. by eexists.
Defined.

Lemma test_path_ignores_key_client_and_context_witness :
  @OpenseaTest.GetAssetsWithContextTest Sample.addresses Mock.externals
    (Mock2.answering 200 Mock.emptyListBody)
    (Mock.client 200 Mock.emptyListBody) tt Sample.noParams
  = @OpenseaTest.GetAssetsWithContextTest Sample.addresses Mock.externals
      (Mock2.answering 200 Mock.emptyListBody) Mock2.down tt Sample.noParams.
Proof.
  apply (@test_path_ignores_key_client_and_context Sample.addresses Mock.externals
           (Mock2.answering 200 Mock.emptyListBody)).
  reflexivity.
Defined.

Lemma part000_GetAssets_runs_the_probe_witness :
  @Part000Client.GetAssets Sample.addresses Mock.externals Mock2.offline
    (Mock.client 200 Mock.emptyListBody) Mock2.noParams000
  = Panics nil_dereference
  ∧ @Part000Client.GetAssets Sample.addresses Mock.externals
      (Mock2.answering 500 "oops") (Mock.client 200 Mock.emptyListBody) Mock2.noParams000
    = Returns (@Part000Client.GetAssetsWithContext Sample.addresses Mock.externals
                 (Mock.client 200 Mock.emptyListBody) tt Mock2.noParams000).
Proof.
  split.
  - apply (proj1 (@part000_GetAssets_runs_the_probe Sample.addresses Mock.externals
                    Mock2.offline (Mock.client 200 Mock.emptyListBody)
                    Mock2.noParams000 0 "")).
    right. split; [reflexivity |]. by eexists.
  - apply (proj2 (@part000_GetAssets_runs_the_probe Sample.addresses Mock.externals
                    (Mock2.answering 500 "oops") (Mock.client 200 Mock.emptyListBody)
                    Mock2.noParams000 500 "oops")).
    split; [reflexivity |]. eexists _, None, None. repeat split.
Defined.

Lemma part001_refused_url_panics_witness :
  @Part001Client.GetAssetsWithContext Sample.addresses Mock2.strict
    Mock2.badHost tt Mock2.noParams001
  = Panics nil_dereference
  ∧ @Part001Client.GetSingleAssetWithContext Mock2.strict
      (Mock.client 200 Mock.assetBody) tt ("0xabc" +:+ String "010" "") (Some 7)
    = Panics nil_dereference.
Proof.
  split.
  - eapply (proj1 (@part001_refused_url_panics Sample.addresses Mock2.strict
                     Mock2.badHost tt Mock2.noParams001 "" None _)).
    vm_compute. reflexivity.
  - eapply (proj2 (@part001_refused_url_panics Sample.addresses Mock2.strict
                     (Mock.client 200 Mock.assetBody) tt Mock2.noParams001
                     ("0xabc" +:+ String "010" "") (Some 7) _)).
    vm_compute. reflexivity.
Defined.

Lemma part001_getURL_agrees_witness :
  ∃ r, @Part001Client.getURL Mock.externals (Mock.client 500 Mock.successBody) tt url0
       = Returns r
       ∧ (r = @Opensea.getURL Mock.externals (Mock.client 500 Mock.successBody) tt url0
          ∨ ∃ args,
              @Opensea.getURL Mock.externals (Mock.client 500 Mock.successBody) tt url0
              = ("", Some (Errorf "backend returns status %d msg: %s" args))
              ∧ r = ("", Some (Errorf "Backend returns status %d msg: %s" args))).
Proof.
  apply (@part001_getURL_agrees Mock.externals). reflexivity.
Defined.

Lemma single_asset_path_injective_witness :
  "0xabc" = "0xabc" ∧ 123456789012345678901234567890 = 123456789012345678901234567890.
Proof.
  apply (@single_asset_path_injective "0xabc" "0xabc"
           123456789012345678901234567890 123456789012345678901234567890).
  reflexivity.
Defined.
End more_examples.
